(** * Booking API regression framework: model and verified properties

    A shallow embedding of the Python sources

      - [models/booking.py]            (data model and wire serialization)
      - [utils/test_data.py]           (test data factory)
      - [utils/validators.py]          (assertion helpers)
      - [services/base_client.py]      (HTTP client core)
      - [services/booking_service.py]  (resource service)
      - [config/settings.py]           (configuration)

    Python objects are modelled by the universe [pyval]; dictionaries keep
    their insertion order (association lists), exceptions are values of
    [exn], and the stateful service is written in a state-and-exception
    monad over the service instance and the remote end. *)

From Stdlib Require Import ZArith String Ascii List Bool Lia Floats.
From stdpp Require Import base option list strings pretty gmap.
Import ListNotations.

Set Warnings "-register-all".
Open Scope string_scope.

(** ** Python values *)

(** The Python objects that flow through the framework: JSON data (without
    floating-point numbers), and instances of the [BookingDates] dataclass.
    A [str] is a Rocq string whose characters are read as code points below
    256; dictionary keys are strings, as in JSON objects and in keyword
    arguments. *)
Inductive pyval : Type :=
| VNone
| VBool (b : bool)
| VInt (n : Z)
| VStr (s : string)
| VList (l : list pyval)
| VDict (d : list (string * pyval))
| VDates (checkin checkout : pyval).

(** Exceptions.  Only assertion failures carry their message text; the
    built-in errors keep the datum that identifies them. *)
Inductive exn : Type :=
| AssertionError (msg : string)
| KeyError (key : string)
| TypeError
| AttributeError (attr : string)
| JSONDecodeError
| RequestException (detail : string).

Inductive outcome (A : Type) : Type :=
| Ok (a : A)
| Raise (e : exn).
Arguments Ok {A} a.
Arguments Raise {A} e.

(** Sequencing of computations that may raise. *)
#[export] Instance outcome_bind : MBind outcome := λ A B k o,
  match o with
  | Ok a => k a
  | Raise e => Raise e
  end.

#[export] Instance outcome_ret : MRet outcome := λ A a, Ok a.

Definition is_assertion_error {A} (o : outcome A) : bool :=
  match o with
  | Raise (AssertionError _) => true
  | _ => false
  end.

(** ** Dictionaries in insertion order *)

Module Dict.
Section Ops.
Context {V : Type}.

(** [d.get(k)], also the test [k in d] *)
Fixpoint get (k : string) (d : list (string * V)) : option V :=
  match d with
  | [] => None
  | (k', v) :: r => if String.eqb k k' then Some v else get k r
  end.

Definition mem (k : string) (d : list (string * V)) : bool :=
  match get k d with Some _ => true | None => false end.

(** [d[k] = v]: overwrite in place, or append a new entry. *)
Fixpoint set (k : string) (v : V) (d : list (string * V)) : list (string * V) :=
  match d with
  | [] => [(k, v)]
  | (k', v') :: r =>
      if String.eqb k k' then (k', v) :: r else (k', v') :: set k v r
  end.

(** [d.update(o)] *)
Definition update (d o : list (string * V)) : list (string * V) :=
  fold_left (fun acc kv => set (fst kv) (snd kv) acc) o d.

Definition keys (d : list (string * V)) : list string := map fst d.

End Ops.
End Dict.

(** ** Built-in operations on values *)

Definition bool_to_Z (b : bool) : Z := if b then 1%Z else 0%Z.

(** Python's [==].  [bool] is a subclass of [int], so [True == 1]; two
    dictionaries are equal when they have the same size and agree on every
    key, whatever the order; dataclass instances compare field by field. *)
Fixpoint py_eq (a b : pyval) {struct a} : bool :=
  match a, b with
  | VNone, VNone => true
  | VBool x, VBool y => Bool.eqb x y
  | VBool x, VInt n => Z.eqb (bool_to_Z x) n
  | VInt n, VBool x => Z.eqb n (bool_to_Z x)
  | VInt m, VInt n => Z.eqb m n
  | VStr s, VStr t => String.eqb s t
  | VList l1, VList l2 =>
      (fix go (l1 l2 : list pyval) : bool :=
         match l1, l2 with
         | [], [] => true
         | x :: xs, y :: ys => py_eq x y && go xs ys
         | _, _ => false
         end) l1 l2
  | VDict d1, VDict d2 =>
      Nat.eqb (length d1) (length d2) &&
      (fix all (d : list (string * pyval)) : bool :=
         match d with
         | [] => true
         | (k, v) :: r =>
             match Dict.get k d2 with
             | Some w => py_eq v w
             | None => false
             end && all r
         end) d1
  | VDates a1 b1, VDates a2 b2 => py_eq a1 a2 && py_eq b1 b2
  | _, _ => false
  end.

(** Truth value of an object, as tested by [if x], [not x] and [x or y]. *)
Definition py_truthy (v : pyval) : bool :=
  match v with
  | VNone => false
  | VBool b => b
  | VInt n => negb (Z.eqb n 0)
  | VStr s => negb (String.eqb s EmptyString)
  | VList l => match l with [] => false | _ => true end
  | VDict d => match d with [] => false | _ => true end
  | VDates _ _ => true
  end.


(** *** Rendering: [repr] and [str] *)

Definition squote : ascii := ascii_of_nat 39.
Definition dquote : ascii := ascii_of_nat 34.
Definition backslash : ascii := ascii_of_nat 92.

Fixpoint str_contains_char (c : ascii) (s : string) : bool :=
  match s with
  | EmptyString => false
  | String a r => Ascii.eqb a c || str_contains_char c r
  end.

Definition hex_digit (n : N) : ascii :=
  match String.get (N.to_nat n) "0123456789abcdef" with
  | Some c => c
  | None => "0"%char
  end.

(** Code points that [repr] copies unchanged (the printable ones). *)
Definition printable (n : N) : bool :=
  (N.leb 32 n && N.ltb n 127) || (N.leb 161 n && negb (N.eqb n 173)).

Definition repr_char (q c : ascii) : string :=
  let n := N_of_ascii c in
  if Ascii.eqb c q || Ascii.eqb c backslash then String backslash (String c EmptyString)
  else if N.eqb n 9 then String backslash "t"
  else if N.eqb n 10 then String backslash "n"
  else if N.eqb n 13 then String backslash "r"
  else if printable n then String c EmptyString
  else String backslash
         (String "x"%char
            (String (hex_digit (N.div n 16))
               (String (hex_digit (N.modulo n 16)) EmptyString))).

Fixpoint repr_chars (q : ascii) (s : string) : string :=
  match s with
  | EmptyString => EmptyString
  | String c r => repr_char q c ++ repr_chars q r
  end.

(** [repr] of a [str]: single quotes, unless the text has a single quote
    and no double quote. *)
Definition repr_str (s : string) : string :=
  let q := if str_contains_char squote s && negb (str_contains_char dquote s)
           then dquote else squote in
  String q (repr_chars q s ++ String q EmptyString).

Fixpoint py_repr (v : pyval) : string :=
  match v with
  | VNone => "None"
  | VBool true => "True"
  | VBool false => "False"
  | VInt n => pretty n
  | VStr s => repr_str s
  | VList l =>
      "[" ++
      (fix items (l : list pyval) : string :=
         match l with
         | [] => EmptyString
         | x :: r =>
             py_repr x ++ match r with [] => EmptyString | _ => ", " ++ items r end
         end) l ++ "]"
  | VDict d =>
      "{" ++
      (fix items (d : list (string * pyval)) : string :=
         match d with
         | [] => EmptyString
         | (k, x) :: r =>
             repr_str k ++ ": " ++ py_repr x ++
             match r with [] => EmptyString | _ => ", " ++ items r end
         end) d ++ "}"
  | VDates ci co =>
      "BookingDates(checkin=" ++ py_repr ci ++ ", checkout=" ++ py_repr co ++ ")"
  end.

(** [str(x)], which is what an f-string field [{x}] renders. *)
Definition py_str (v : pyval) : string :=
  match v with
  | VStr s => s
  | _ => py_repr v
  end.

(** [s[:n]] *)
Fixpoint str_take (n : nat) (s : string) : string :=
  match n, s with
  | S m, String c r => String c (str_take m r)
  | _, _ => EmptyString
  end.

Fixpoint str_prefix (p s : string) : bool :=
  match p, s with
  | EmptyString, _ => true
  | String a p', String b s' => Ascii.eqb a b && str_prefix p' s'
  | String _ _, EmptyString => false
  end.

(** [p in s] on strings: [p] occurs as a contiguous substring of [s]. *)
Fixpoint str_in (p s : string) : bool :=
  str_prefix p s ||
  match s with
  | EmptyString => false
  | String _ r => str_in p r
  end.

(** ** Data model ([models/booking.py]) *)

(** The dataclass [Booking].  Python does not enforce the field annotations,
    so every field holds an arbitrary object; [bookingdates] is declared a
    [BookingDates] (here [VDates]) and [additionalneeds] defaults to [None]. *)
Record Booking : Type := mkBooking {
  firstname : pyval;
  lastname : pyval;
  totalprice : pyval;
  depositpaid : pyval;
  bookingdates : pyval;
  additionalneeds : pyval
}.

(** Attribute access [obj.checkin] / [obj.checkout]: only a [BookingDates]
    instance has these attributes. *)
Definition getattr_checkin (v : pyval) : outcome pyval :=
  match v with
  | VDates ci _ => Ok ci
  | _ => Raise (AttributeError "checkin")
  end.

Definition getattr_checkout (v : pyval) : outcome pyval :=
  match v with
  | VDates _ co => Ok co
  | _ => Raise (AttributeError "checkout")
  end.

Definition is_none (v : pyval) : bool :=
  match v with VNone => true | _ => false end.

(** [Booking.to_dict] *)
Definition to_dict (self : Booking) : outcome (list (string * pyval)) :=
  checkin ← getattr_checkin (bookingdates self);
  checkout ← getattr_checkout (bookingdates self);
  let data :=
    [ ("firstname", firstname self);
      ("lastname", lastname self);
      ("totalprice", totalprice self);
      ("depositpaid", depositpaid self);
      ("bookingdates", VDict [("checkin", checkin); ("checkout", checkout)]) ] in
  mret (if negb (is_none (additionalneeds self))
        then Dict.set "additionalneeds" (additionalneeds self) data
        else data).

(** ** Responses of the HTTP library *)

(** [datetime.timedelta], normalized by Python into days, seconds and
    microseconds. *)
Record timedelta : Type := mkTimedelta {
  days : Z;
  seconds : Z;
  microseconds : Z
}.

(** Integer to float conversion, as Python's for an integer below 2^53 in
    absolute value (some 285 years, counted in microseconds), where it is
    exact.  Beyond that it is not Python's: it rounds twice from 2^53 and
    wraps around from 2^63. *)
Definition float_of_Z (z : Z) : float :=
  if Z.ltb z 0
  then PrimFloat.opp (PrimFloat.of_uint63 (Uint63.of_Z (Z.opp z)))
  else PrimFloat.of_uint63 (Uint63.of_Z z).

(** [timedelta.total_seconds()]: the number of microseconds divided by
    10^6, as a float. *)
Definition total_seconds (d : timedelta) : float :=
  PrimFloat.div
    (float_of_Z ((days d * 86400 + seconds d) * 1000000 + microseconds d))
    (float_of_Z 1000000).

(** ASCII and Latin-1 lower-casing, as done by [str.lower]. *)
Definition lower_char (c : ascii) : ascii :=
  let n := N_of_ascii c in
  if (N.leb 65 n && N.leb n 90) ||
     (N.leb 192 n && N.leb n 222 && negb (N.eqb n 215))
  then ascii_of_N (n + 32)
  else c.

Fixpoint lower (s : string) : string :=
  match s with
  | EmptyString => EmptyString
  | String c r => String (lower_char c) (lower r)
  end.

(** The header mapping of a response ([CaseInsensitiveDict]): entries are
    stored under the lower-cased name, next to the name as received. *)
Definition header_store : Type := gmap string (string * string).

(** [headers.get(name, default)] *)
Definition headers_get (h : header_store) (name default : string) : string :=
  match h !! lower name with
  | Some (_, v) => v
  | None => default
  end.

(** [requests.Response], reduced to what the framework reads.  [json_body]
    is the value [response.json()] decodes, [None] when the body does not
    decode (the call then raises). *)
Record Response : Type := mkResponse {
  status_code : Z;
  text : string;
  json_body : option pyval;
  headers : header_store;
  elapsed : timedelta
}.

(** [response.json()] *)
Definition response_json (r : Response) : outcome pyval :=
  match json_body r with
  | Some v => Ok v
  | None => Raise JSONDecodeError
  end.

(** The test [key in data] for a string [key]. *)
Definition py_contains (key : string) (data : pyval) : outcome bool :=
  match data with
  | VDict d => Ok (Dict.mem key d)
  | VList l => Ok (existsb (λ item, py_eq item (VStr key)) l)
  | VStr s => Ok (str_in key s)
  | _ => Raise TypeError
  end.

(** The subscription [data[key]] for a string [key]. *)
Definition py_getitem (data : pyval) (key : string) : outcome pyval :=
  match data with
  | VDict d =>
      match Dict.get key d with
      | Some v => Ok v
      | None => Raise (KeyError key)
      end
  | _ => Raise TypeError
  end.

(** ** Validation helpers ([utils/validators.py]) *)

(** [assert cond, msg] *)
Definition py_assert (cond : bool) (msg : string) : outcome unit :=
  if cond then Ok tt else Raise (AssertionError msg).

Definition assert_status_code (response : Response) (expected : Z) : outcome unit :=
  py_assert (Z.eqb (status_code response) expected)
    ("Expected status " ++ pretty expected ++ ", got " ++
     pretty (status_code response) ++ ". " ++
     "Response: " ++ str_take 300 (text response)).

Definition key_not_found_msg (key : string) (data : pyval) : string :=
  "Key '" ++ key ++ "' not found in response: " ++ py_str data.

Definition assert_json_key_exists (response : Response) (key : string) : outcome unit :=
  data ← response_json response;
  present ← py_contains key data;
  py_assert present (key_not_found_msg key data).

Definition assert_json_value (response : Response) (key : string)
    (expected_value : pyval) : outcome unit :=
  data ← response_json response;
  present ← py_contains key data;
  py_assert present (key_not_found_msg key data);;
  actual ← py_getitem data key;
  py_assert (py_eq actual expected_value)
    ("Expected '" ++ key ++ "' = " ++ py_str expected_value ++
     ", got " ++ py_str actual).

(** [value.items()] *)
Definition py_items (value : pyval) : outcome (list (string * pyval)) :=
  match value with
  | VDict d => Ok d
  | _ => Raise (AttributeError "items")
  end.

Definition date_mismatch_msg (date_key : string) (date_val actual : pyval) : string :=
  "Expected bookingdates." ++ date_key ++ " = '" ++ py_str date_val ++ "', " ++
  "got '" ++ py_str actual ++ "'".

Definition field_mismatch_msg (key : string) (value actual : pyval) : string :=
  "Expected '" ++ key ++ "' = '" ++ py_str value ++ "', got '" ++ py_str actual ++ "'".

(** The inner loop of [assert_booking_fields], over the items of the expected
    date range. *)
Fixpoint assert_dates (booking_data : list (string * pyval))
    (items : list (string * pyval)) : outcome unit :=
  match items with
  | [] => Ok tt
  | (date_key, date_val) :: rest =>
      dates ← py_getitem (VDict booking_data) "bookingdates";
      actual ← py_getitem dates date_key;
      py_assert (py_eq actual date_val) (date_mismatch_msg date_key date_val actual);;
      assert_dates booking_data rest
  end.

(** [assert_booking_fields]: the loop over [expected.items()]. *)
Fixpoint assert_booking_fields (booking_data expected : list (string * pyval))
    : outcome unit :=
  match expected with
  | [] => Ok tt
  | (key, value) :: rest =>
      (if String.eqb key "bookingdates"
       then items ← py_items value; assert_dates booking_data items
       else actual ← py_getitem (VDict booking_data) key;
            py_assert (py_eq actual value) (field_mismatch_msg key value actual));;
      assert_booking_fields booking_data rest
  end.


Definition content_type_msg (expected content_type : string) : string :=
  "Expected Content-Type '" ++ expected ++ "', got '" ++ content_type ++ "'".

(** [assert_content_type]; [expected] defaults to ["application/json"]. *)
Definition assert_content_type (response : Response) (expected : option string)
    : outcome unit :=
  let expected := default "application/json" expected in
  let content_type := headers_get (headers response) "Content-Type" EmptyString in
  py_assert (str_in expected content_type) (content_type_msg expected content_type).

Section FloatFormat.

(** Rendering of floats by the f-string fields [{x:.2f}] and [{x}]; these
    built-ins are left abstract. *)
Variable format_2f : float -> string.
Variable float_str : float -> string.

Definition response_time_msg (elapsed_s max_seconds : float) : string :=
  "Response took " ++ format_2f elapsed_s ++ "s, exceeding " ++
  float_str max_seconds ++ "s threshold".

(** [assert_response_time]; [max_seconds] defaults to [5.0]. *)
Definition assert_response_time (response : Response) (max_seconds : option float)
    : outcome unit :=
  let max_seconds := default 5.0%float max_seconds in
  let elapsed_s := total_seconds (elapsed response) in
  py_assert (PrimFloat.ltb elapsed_s max_seconds)
    (response_time_msg elapsed_s max_seconds).

End FloatFormat.

(** ** Test data factory ([utils/test_data.py]) *)

Definition str_mem (k : string) (l : list string) : bool :=
  existsb (String.eqb k) l.

Definition dates_fields : list string := ["checkin"; "checkout"].

Definition booking_fields : list string :=
  ["firstname"; "lastname"; "totalprice"; "depositpaid"; "bookingdates";
   "additionalneeds"].

(** The constructor [BookingDates] called with keyword arguments: it takes exactly the
    two required fields; a missing or an unknown keyword is a [TypeError]. *)
Definition BookingDates_init (kwargs : list (string * pyval)) : outcome pyval :=
  if forallb (fun k => str_mem k dates_fields) (Dict.keys kwargs)
  then match Dict.get "checkin" kwargs, Dict.get "checkout" kwargs with
       | Some ci, Some co => Ok (VDates ci co)
       | _, _ => Raise TypeError
       end
  else Raise TypeError.

(** The constructor [Booking] called with keyword arguments: five required fields, [additionalneeds] optional
    with default [None]; an unknown keyword is a [TypeError]. *)
Definition Booking_init (kwargs : list (string * pyval)) : outcome Booking :=
  if forallb (fun k => str_mem k booking_fields) (Dict.keys kwargs)
  then match Dict.get "firstname" kwargs, Dict.get "lastname" kwargs,
             Dict.get "totalprice" kwargs, Dict.get "depositpaid" kwargs,
             Dict.get "bookingdates" kwargs with
       | Some f, Some l, Some t, Some d, Some b =>
           Ok (mkBooking f l t d b (default VNone (Dict.get "additionalneeds" kwargs)))
       | _, _, _, _, _ => Raise TypeError
       end
  else Raise TypeError.

Definition factory_defaults : list (string * pyval) :=
  [ ("firstname", VStr "John");
    ("lastname", VStr "Doe");
    ("totalprice", VInt 150);
    ("depositpaid", VBool true);
    ("bookingdates", VDates (VStr "2025-01-01") (VStr "2025-01-10"));
    ("additionalneeds", VStr "Breakfast") ].

(** [create_valid_booking], called with the keyword arguments [overrides] *)
Definition create_valid_booking (overrides : list (string * pyval)) : outcome Booking :=
  let defaults := Dict.update factory_defaults overrides in
  defaults ←
    (dates ← py_getitem (VDict defaults) "bookingdates";
     match dates with
     | VDict raw =>
         structured ← BookingDates_init raw;
         Ok (Dict.set "bookingdates" structured defaults)
     | _ => Ok defaults
     end);
  Booking_init defaults.

(** [create_booking_payload] *)
Definition create_booking_payload (overrides : list (string * pyval))
    : outcome (list (string * pyval)) :=
  booking ← create_valid_booking overrides;
  to_dict booking.

(** ** Configuration ([config/settings.py]) *)

(** The class attributes of [APIConfig], read from the environment when the
    module is imported. *)
Record APIConfig : Type := mkAPIConfig {
  BASE_URL : string;
  REQUEST_TIMEOUT : Z;
  AUTH_USERNAME : string;
  AUTH_PASSWORD : string
}.

(** [Headers.JSON] *)
Definition Headers_JSON : list (string * string) :=
  [ ("Content-Type", "application/json"); ("Accept", "application/json") ].

(** ** HTTP client core ([services/base_client.py]) *)

Inductive http_method : Type := GET | POST | PUT | PATCH | DELETE.

Definition method_name (m : http_method) : string :=
  match m with
  | GET => "GET" | POST => "POST" | PUT => "PUT"
  | PATCH => "PATCH" | DELETE => "DELETE"
  end.

(** One call handed to the session: [session.<verb>(url, params=..,
    json=.., headers=.., timeout=..)].  An argument the verb is not given is
    [None], as is one the caller passed as [None]. *)
Record Request : Type := mkRequest {
  req_method : http_method;
  req_url : string;
  req_params : option (list (string * pyval));
  req_json : option (list (string * pyval));
  req_headers : option (list (string * string));
  req_timeout : Z
}.

Inductive log_level : Type := INFO | DEBUG | WARNING.

(** ** The service instance and the remote end *)

Section Service.

(** The configuration in force, the remote end behind the session (its
    state, and how it answers one call: a response, or a transport error),
    and the rendering of [{x:.2f}]. *)
Variable cfg : APIConfig.
Variable server : Type.
Variable handle : server -> Request -> server * outcome Response.
Variable format_2f : float -> string.

(** A [BookingService] instance together with what it acts upon: the
    attributes set by the constructors, the remote end, the records handed
    to the logger, and the calls made on the session so far. *)
Record Service : Type := mkService {
  base_url : string;
  session_headers : list (string * string);
  timeout : Z;
  _token : pyval;
  remote : server;
  log : list (log_level * string);
  sent : list Request
}.

(** Computations on the service: they may raise, and the changes made
    before the raise remain. *)
Definition M (A : Type) : Type := Service -> outcome A * Service.

#[export] Instance M_bind : MBind M := λ A B k m s,
  match m s with
  | (Ok a, s') => k a s'
  | (Raise e, s') => (Raise e, s')
  end.

#[export] Instance M_ret : MRet M := λ A a s, (Ok a, s).

Definition lift {A} (o : outcome A) : M A := λ s, (o, s).

Definition read {A} (f : Service -> A) : M A := λ s, (Ok (f s), s).

Definition set_token (t : pyval) : M unit := λ s,
  (Ok tt, mkService (base_url s) (session_headers s) (timeout s) t
            (remote s) (log s) (sent s)).

Definition logger (level : log_level) (msg : string) : M unit := λ s,
  (Ok tt, mkService (base_url s) (session_headers s) (timeout s) (_token s)
            (remote s) (log s ++ [(level, msg)]) (sent s)).

(** The session performs one call: the remote end answers or the transport
    fails. *)
Definition session_request (req : Request) : M Response := λ s,
  let (remote', r) := handle (remote s) req in
  (r, mkService (base_url s) (session_headers s) (timeout s) (_token s)
        remote' (log s) (sent s ++ [req])).

(** [BaseAPIClient.__init__] followed by [BookingService.__init__], on a
    fresh session; [base_url] is not given by the subclass. *)
Definition BookingService_init (r : server) : Service :=
  mkService (BASE_URL cfg) Headers_JSON (REQUEST_TIMEOUT cfg) VNone r [] [].

Definition ENDPOINT : string := "/booking".
Definition AUTH_ENDPOINT : string := "/auth".

Definition _url (endpoint : string) : M string :=
  base ← read base_url; mret (base ++ endpoint).

Definition opt_dict_str (d : option (list (string * pyval))) : string :=
  match d with
  | Some d => py_str (VDict d)
  | None => "None"
  end.

(** [_log_request]; [body] and [params] are the keyword arguments [json] and
    [params] when the caller passes them. *)
Definition _log_request (method : http_method) (url : string)
    (body params : option (option (list (string * pyval)))) : M unit :=
  logger INFO ("REQUEST  → " ++ method_name method ++ " " ++ url);;
  match body with
  | Some j => logger DEBUG ("  Body: " ++ opt_dict_str j)
  | None => mret tt
  end;;
  match params with
  | Some p => logger DEBUG ("  Params: " ++ opt_dict_str p)
  | None => mret tt
  end.

Definition _log_response (response : Response) : M unit :=
  logger INFO ("RESPONSE ← " ++ pretty (status_code response) ++ " " ++
               "(" ++ format_2f (total_seconds (elapsed response)) ++ "s)");;
  logger DEBUG ("  Body: " ++ str_take 500 (text response)).

Definition get (endpoint : string) (params : option (list (string * pyval)))
    (headers : option (list (string * string))) : M Response :=
  url ← _url endpoint;
  _log_request GET url None (Some params);;
  t ← read timeout;
  response ← session_request (mkRequest GET url params None headers t);
  _log_response response;;
  mret response.

Definition post (endpoint : string) (json : option (list (string * pyval)))
    (headers : option (list (string * string))) : M Response :=
  url ← _url endpoint;
  _log_request POST url (Some json) None;;
  t ← read timeout;
  response ← session_request (mkRequest POST url None json headers t);
  _log_response response;;
  mret response.

Definition put (endpoint : string) (json : option (list (string * pyval)))
    (headers : option (list (string * string))) : M Response :=
  url ← _url endpoint;
  _log_request PUT url (Some json) None;;
  t ← read timeout;
  response ← session_request (mkRequest PUT url None json headers t);
  _log_response response;;
  mret response.

Definition patch (endpoint : string) (json : option (list (string * pyval)))
    (headers : option (list (string * string))) : M Response :=
  url ← _url endpoint;
  _log_request PATCH url (Some json) None;;
  t ← read timeout;
  response ← session_request (mkRequest PATCH url None json headers t);
  _log_response response;;
  mret response.

Definition delete (endpoint : string)
    (headers : option (list (string * string))) : M Response :=
  url ← _url endpoint;
  _log_request DELETE url None None;;
  t ← read timeout;
  response ← session_request (mkRequest DELETE url None None headers t);
  _log_response response;;
  mret response.

(** ** Resource service ([services/booking_service.py]) *)

(** [arg or fallback], for an optional string argument. *)
Definition str_or (arg : option string) (fallback : string) : string :=
  match arg with
  | Some s => if py_truthy (VStr s) then s else fallback
  | None => fallback
  end.

(** [obj.get("token")]: only a dictionary has the method. *)
Definition py_get_token (obj : pyval) : outcome pyval :=
  match obj with
  | VDict d => Ok (default VNone (Dict.get "token" d))
  | _ => Raise (AttributeError "get")
  end.

Definition auth_payload (username password : option string) : list (string * pyval) :=
  [ ("username", VStr (str_or username (AUTH_USERNAME cfg)));
    ("password", VStr (str_or password (AUTH_PASSWORD cfg))) ].

Definition authenticate (username password : option string) : M pyval :=
  let payload := auth_payload username password in
  response ← post AUTH_ENDPOINT (Some payload) None;
  body ← lift (response_json response);
  token ← lift (py_get_token body);
  set_token token;;
  logger INFO "Authentication successful";;
  read _token.

Definition cookie_headers (token : pyval) : list (string * string) :=
  [ ("Cookie", "token=" ++ py_str token) ].

(** The property [auth_headers] *)
Definition auth_headers : M (list (string * string)) :=
  token ← read _token;
  (if negb (py_truthy token)
   then authenticate None None;; mret tt
   else mret tt);;
  token ← read _token;
  mret (cookie_headers token).

(** An optional filter is used when it is given and not empty. *)
Definition add_filter (name : string) (arg : option string)
    (params : list (string * pyval)) : list (string * pyval) :=
  match arg with
  | Some s => if py_truthy (VStr s) then Dict.set name (VStr s) params else params
  | None => params
  end.

Definition booking_ids_params (firstname lastname checkin checkout : option string)
    : list (string * pyval) :=
  add_filter "checkout" checkout
    (add_filter "checkin" checkin
       (add_filter "lastname" lastname
          (add_filter "firstname" firstname []))).

Definition get_booking_ids (firstname lastname checkin checkout : option string)
    : M Response :=
  let params := booking_ids_params firstname lastname checkin checkout in
  get ENDPOINT (Some params) None.

Definition booking_path (booking_id : Z) : string :=
  ENDPOINT ++ "/" ++ pretty booking_id.

Definition get_booking (booking_id : Z) : M Response :=
  get (booking_path booking_id) None None.

Definition create_booking (booking : Booking) : M Response :=
  body ← lift (to_dict booking);
  post ENDPOINT (Some body) None.

Definition update_booking (booking_id : Z) (booking : Booking) : M Response :=
  body ← lift (to_dict booking);
  hdrs ← auth_headers;
  put (booking_path booking_id) (Some body) (Some hdrs).

Definition partial_update_booking (booking_id : Z) (data : list (string * pyval))
    : M Response :=
  hdrs ← auth_headers;
  patch (booking_path booking_id) (Some data) (Some hdrs).

Definition delete_booking (booking_id : Z) : M Response :=
  hdrs ← auth_headers;
  delete (booking_path booking_id) (Some hdrs).

End Service.

Arguments mkService {server}.
Arguments base_url {server}.
Arguments session_headers {server}.
Arguments timeout {server}.
Arguments _token {server}.
Arguments remote {server}.
Arguments log {server}.
Arguments sent {server}.
Arguments lift {server}.
Arguments read {server}.
Arguments set_token {server}.
Arguments logger {server}.
Arguments session_request {server}.
Arguments _url {server}.
Arguments _log_request {server}.
Arguments _log_response {server}.
Arguments get {server}.
Arguments post {server}.
Arguments put {server}.
Arguments patch {server}.
Arguments delete {server}.
Arguments get_booking_ids {server}.
Arguments get_booking {server}.
Arguments create_booking {server}.
Arguments BookingService_init cfg {server}.
Arguments authenticate cfg {server}.
Arguments auth_headers cfg {server}.
Arguments update_booking cfg {server}.
Arguments partial_update_booking cfg {server}.
Arguments delete_booking cfg {server}.

(** ** Definitions used to state the properties *)

(** The wire entries every serialized booking has, in the order the
    dictionary display lists them. *)
Definition wire_core (b : Booking) (ci co : pyval) : list (string * pyval) :=
  [ ("firstname", firstname b);
    ("lastname", lastname b);
    ("totalprice", totalprice b);
    ("depositpaid", depositpaid b);
    ("bookingdates", VDict [("checkin", ci); ("checkout", co)]) ].

(** Sample values, used to instantiate the properties. *)

Definition sample_booking : Booking :=
  mkBooking (VStr "Bob") (VStr "Johnson") (VInt 0) (VBool false)
    (VDates (VStr "2025-06-15") (VStr "2025-06-20")) VNone.

(** The forms of a [bookingdates] override that the factory turns into a
    structured date range: a [BookingDates] instance, or a raw dictionary
    with the keys checkin and checkout and no other. *)
Definition dates_override_ok (v : pyval) : Prop :=
  match v with
  | VDates _ _ => True
  | VDict raw =>
      Forall (λ k, In k dates_fields) (Dict.keys raw) ∧
      is_Some (Dict.get "checkin" raw) ∧ is_Some (Dict.get "checkout" raw)
  | _ => False
  end.

(** What the factory makes of a [bookingdates] override. *)
Definition structured_dates (v : pyval) : pyval :=
  match v with
  | VDict raw =>
      VDates (default VNone (Dict.get "checkin" raw))
             (default VNone (Dict.get "checkout" raw))
  | _ => v
  end.

Definition is_structured (v : pyval) : Prop := ∃ ci co, v = VDates ci co.

(** Keyword arguments used to exhibit the behaviour of the factory. *)
Definition sample_overrides : list (string * pyval) :=
  [ ("firstname", VStr "ToDelete");
    ("bookingdates",
     VDict [("checkout", VStr "2025-03-05"); ("checkin", VStr "2025-03-01")]);
    ("additionalneeds", VNone) ].






(** A booking as the remote end may echo it, with no [additionalneeds]. *)
Definition echoed_booking : list (string * pyval) :=
  [ ("firstname", VStr "John");
    ("lastname", VStr "Doe");
    ("totalprice", VInt 150);
    ("depositpaid", VBool true);
    ("bookingdates",
     VDict [("checkin", VStr "2025-01-01"); ("checkout", VStr "2025-01-10")]) ].


(** Responses used to exhibit the helpers: one without headers, received
    after 4.999999 seconds, and the same received after 5 seconds. *)
Definition bare_response : Response :=
  mkResponse 200 "[]" (Some (VList [])) ∅ (mkTimedelta 0 4 999999).

Definition slow_response : Response :=
  mkResponse 200 "[]" (Some (VList [])) ∅ (mkTimedelta 0 5 0).

Section ServiceStatements.

Variable cfg : APIConfig.
Variable server : Type.

(** The call a verb of the client core hands to the session. *)
Definition client_request (s : Service server) (m : http_method) (path : string)
    (params json : option (list (string * pyval)))
    (headers : option (list (string * string))) : Request :=
  mkRequest m (base_url s ++ path) params json headers (timeout s).

(** The call [authenticate] makes. *)
Definition auth_request (s : Service server) (username password : option string)
    : Request :=
  client_request s POST AUTH_ENDPOINT None
    (Some (auth_payload cfg username password)) None.

(** [s'] is [s] after the session made the calls [reqs]: the remote end is
    left at [r], the cached token is [t], and the attributes set by the
    constructor are unchanged.  (The log grows; it is not constrained.) *)
Definition stepped (s s' : Service server) (t : pyval) (r : server)
    (reqs : list Request) : Prop :=
  base_url s' = base_url s ∧
  session_headers s' = session_headers s ∧
  timeout s' = timeout s ∧
  _token s' = t ∧
  remote s' = r ∧
  sent s' = (sent s ++ reqs)%list.

(** An optional filter as the query carries it: the value when it is given
    and not empty. *)
Definition filter_value (arg : option string) : option pyval :=
  match arg with
  | Some s => if String.eqb s EmptyString then None else Some (VStr s)
  | None => None
  end.

End ServiceStatements.

Arguments client_request {server}.
Arguments auth_request cfg {server}.
Arguments stepped {server}.

(** A configuration and two remote ends, used to instantiate the
    properties: one grants a token to every call, the other answers
    every call with a refusal that carries no token. *)
Definition demo_cfg : APIConfig :=
  mkAPIConfig "https://restful-booker.herokuapp.com" 30 "admin" "password123".

Definition quoted (s : string) : string :=
  String dquote (s ++ String dquote EmptyString).

Definition token_response : Response :=
  mkResponse 200 ("{" ++ quoted "token" ++ ":" ++ quoted "abc123" ++ "}")
    (Some (VDict [("token", VStr "abc123")])) ∅ (mkTimedelta 0 0 250000).

Definition refusal_response : Response :=
  mkResponse 200
    ("{" ++ quoted "reason" ++ ":" ++ quoted "Bad credentials" ++ "}")
    (Some (VDict [("reason", VStr "Bad credentials")])) ∅
    (mkTimedelta 0 0 250000).

Definition granting (n : nat) (req : Request) : nat * outcome Response :=
  (S n, Ok token_response).

Definition refusing (n : nat) (req : Request) : nat * outcome Response :=
  (S n, Ok refusal_response).

Definition demo_format (x : float) : string := "0.25".

Definition fresh_service : Service nat := BookingService_init demo_cfg 0%nat.

(** ** Fixtures ([regression_suite/conftest.py]) *)

Section Fixtures.

Variable cfg : APIConfig.
Variable server : Type.
Variable handle : server → Request → server * outcome Response.
Variable format_2f : float → string.

(** [try: body except Exception: handler].  Every exception of [exn] is an
    [Exception]; the changes the body made before raising remain. *)
Definition try_except {A} (body handler : M server A) : M server A := λ s,
  match body s with
  | (Ok a, s') => (Ok a, s')
  | (Raise _, s') => handler s'
  end.

(** The fixture [sample_booking] *)
Definition sample_booking_fixture : outcome Booking := create_valid_booking [].

(** The fixture [auth_token] *)
Definition auth_token : M server pyval :=
  authenticate cfg handle format_2f None None.

(** The fixture [created_booking], up to its [yield]: the value handed to
    the test. *)
Definition created_booking_setup (sample : Booking)
    : M server (list (string * pyval)) :=
  response ← create_booking handle format_2f sample;
  data ← @lift server _ (response_json response);
  booking_id ← @lift server _ (py_getitem data "bookingid");
  logger INFO ("Created test booking with ID: " ++ py_str booking_id);;
  booking ← @lift server _ (py_getitem data "booking");
  mret [("id", booking_id); ("data", booking)].

(** The fixture [created_booking], after its [yield]: the clean-up, for the
    integer identifier the remote end assigned. *)
Definition created_booking_teardown (booking_id : Z) : M server unit :=
  try_except
    (delete_booking cfg handle format_2f booking_id;;
     logger INFO ("Cleaned up booking ID: " ++ pretty booking_id))
    (logger WARNING ("Could not clean up booking ID: " ++ pretty booking_id)).

End Fixtures.

Arguments try_except {server A}.
Arguments auth_token cfg {server}.
Arguments created_booking_setup {server}.
Arguments created_booking_teardown cfg {server}.

(** ** Scenarios ([regression_suite/test_booking_api.py]) *)

(** A scenario is a computation on the service of the session: it passes
    when it returns and fails with the exception it raises. *)
Section Scenarios.

Variable server : Type.
Variable handle : server → Request → server * outcome Response.
Variable format_2f : float → string.
Variable float_str : float → string.

(** TC-04 *)
Definition test_get_nonexistent_booking_returns_404 : M server unit :=
  response ← get_booking handle format_2f 999999999;
  @lift server _ (assert_status_code response 404).

(** TC-11 *)
Definition test_api_health_check : M server unit :=
  response ← get handle format_2f "/ping" None None;
  @lift server _ (assert_status_code response 201);;
  @lift server _
    (assert_response_time format_2f float_str response (Some 5.0%float)).

(** [isinstance(x, str) and len(x) > 0] *)
Definition is_nonempty_str (x : pyval) : bool :=
  match x with
  | VStr t => negb (String.eqb t EmptyString)
  | _ => false
  end.

(** TC-12 *)
Definition test_auth_with_valid_credentials : M server unit :=
  response ← post handle format_2f "/auth"
                (Some [("username", VStr "admin");
                       ("password", VStr "password123")]) None;
  @lift server _ (assert_status_code response 200);;
  data ← @lift server _ (response_json response);
  present ← @lift server _ (py_contains "token" data);
  @lift server _ (py_assert present "Response missing 'token'");;
  token ← @lift server _ (py_getitem data "token");
  @lift server _ (py_assert (is_nonempty_str token) EmptyString).

End Scenarios.

Arguments test_get_nonexistent_booking_returns_404 {server}.
Arguments test_api_health_check {server}.
Arguments test_auth_with_valid_credentials {server}.

(** ** Further definitions used to state the properties *)


(** [s'] follows [s]: the attributes set by the constructor are the same,
    and the calls sent and the log records of [s] are still there, in
    front. *)
Definition follows {server : Type} (s s' : Service server) : Prop :=
  base_url s' = base_url s ∧
  session_headers s' = session_headers s ∧
  timeout s' = timeout s ∧
  (∃ reqs, sent s' = (sent s ++ reqs)%list) ∧
  (∃ records, log s' = (log s ++ records)%list).

(** A response with a Content-Type header, as the remote end sends it. *)
Definition json_response : Response :=
  mkResponse 200 "[]" (Some (VList []))
    {[ "content-type" := ("Content-Type", "application/json; charset=utf-8") ]}
    (mkTimedelta 0 0 250000).

(** A remote end that cannot be reached: every call fails in transport. *)
Definition unreachable (n : nat) (req : Request) : nat * outcome Response :=
  (n, Raise (RequestException "connection refused")).

(** The messages of the records logged at level INFO, in order. *)
Fixpoint info_lines (records : list (log_level * string)) : list string :=
  match records with
  | [] => []
  | (INFO, msg) :: rest => msg :: info_lines rest
  | _ :: rest => info_lines rest
  end.

(** The service after a successful authentication, and a remote end that
    answers every call with the record of a created booking. *)
Definition authenticated_service : Service nat :=
  (authenticate demo_cfg granting demo_format None None fresh_service).2.

Definition creation_response : Response :=
  mkResponse 200 "{}"
    (Some (VDict [("bookingid", VInt 7); ("booking", VDict echoed_booking)])) ∅
    (mkTimedelta 0 0 250000).

Definition creating (n : nat) (req : Request) : nat * outcome Response :=
  (S n, Ok creation_response).

(** A remote end that knows no booking and answers every call with 404,
    and one whose ping answers 201. *)
Definition not_found_response : Response :=
  mkResponse 404 "Not Found" None ∅ (mkTimedelta 0 0 250000).

Definition missing (n : nat) (req : Request) : nat * outcome Response :=
  (S n, Ok not_found_response).

Definition pong_response : Response :=
  mkResponse 201 "Created" None ∅ (mkTimedelta 0 0 250000).

Definition alive (n : nat) (req : Request) : nat * outcome Response :=
  (S n, Ok pong_response).

(** [isinstance(v, dict)] *)
Definition is_dict (v : pyval) : bool :=
  match v with VDict _ => true | _ => false end.



(** * Properties *)

(** ** Rendering, on examples *)

Example py_str_dict :
  py_str (VDict [("firstname", VStr "John"); ("totalprice", VInt 150);
                 ("depositpaid", VBool true); ("additionalneeds", VNone)])
  = "{'firstname': 'John', 'totalprice': 150, 'depositpaid': True, 'additionalneeds': None}".
Proof. reflexivity. Qed.

Example py_str_quotes :
  py_repr (VList [VStr "it's"; VInt (-3); VDates (VStr "2025-01-01") (VStr "2025-01-10")])
  = String "[" (String dquote ("it's" ++ String dquote
      ", -3, BookingDates(checkin='2025-01-01', checkout='2025-01-10')]")).
Proof. reflexivity. Qed.

Example field_mismatch_msg_text :
  field_mismatch_msg "totalprice" (VInt 150) (VInt 151)
  = "Expected 'totalprice' = '150', got '151'".
Proof. reflexivity. Qed.

(** Python's equality identifies [True] with [1] and ignores the order of
    dictionary entries. *)
Example py_eq_cases :
  py_eq (VBool true) (VInt 1) = true ∧
  py_eq (VStr "1") (VInt 1) = false ∧
  py_eq (VDict [("checkin", VStr "a"); ("checkout", VStr "b")])
        (VDict [("checkout", VStr "b"); ("checkin", VStr "a")]) = true.
Proof. repeat split. Qed.

(** ** Dictionaries *)

Module DictFacts.
Section Facts.
Context {V : Type}.
Implicit Types (d o : list (string * V)) (k : string) (v : V).

Lemma get_set_eq d k v : Dict.get k (Dict.set k v d) = Some v.
Proof.
  induction d as [|[k' v'] d IH]; simpl.
  - by rewrite String.eqb_refl.
  - destruct (String.eqb k k') eqn:E; simpl; rewrite E; [done | apply IH].
Qed.

Lemma get_set_ne d k k' v : k ≠ k' → Dict.get k (Dict.set k' v d) = Dict.get k d.
Proof.
  intros Hne. induction d as [|[k2 v2] d IH]; simpl.
  - destruct (String.eqb k k') eqn:E; [|done].
    apply String.eqb_eq in E. contradiction.
  - destruct (String.eqb k' k2) eqn:E; simpl.
    + apply String.eqb_eq in E. subst k2.
      destruct (String.eqb k k') eqn:E2; [|done].
      apply String.eqb_eq in E2. contradiction.
    + by rewrite IH.
Qed.

Lemma keys_set_in d k v : In k (Dict.keys d) → Dict.keys (Dict.set k v d) = Dict.keys d.
Proof.
  induction d as [|[k' v'] d IH]; simpl; [done|].
  intros Hin. destruct (String.eqb k k') eqn:E; simpl; [done|].
  f_equal. apply IH. destruct Hin as [->|]; [|done].
  by rewrite String.eqb_refl in E.
Qed.

Lemma get_None_not_in d k : ¬ In k (Dict.keys d) → Dict.get k d = None.
Proof.
  induction d as [|[k' v'] d IH]; simpl; [done|].
  intros Hn. destruct (String.eqb k k') eqn:E.
  - apply String.eqb_eq in E. subst. tauto.
  - apply IH. tauto.
Qed.

Lemma keys_update d o :
  Forall (λ k, In k (Dict.keys d)) (Dict.keys o) →
  Dict.keys (Dict.update d o) = Dict.keys d.
Proof.
  unfold Dict.update. revert d.
  induction o as [|[k v] o IH]; intros d Hall; simpl; [done|].
  inversion Hall as [|? ? Hk Ho]; subst.
  rewrite IH; rewrite keys_set_in; done.
Qed.

(** After [d.update(o)], a key of [o] has the value [o] gives it and any
    other key keeps its value in [d]. *)
Lemma get_update d o k :
  NoDup (Dict.keys o) →
  Dict.get k (Dict.update d o) =
    match Dict.get k o with Some v => Some v | None => Dict.get k d end.
Proof.
  unfold Dict.update. revert d.
  induction o as [|[k' v'] o IH]; intros d Hnd; simpl; [done|].
  inversion Hnd as [|? ? Hnotin Hnd']; subst.
  rewrite IH by done.
  destruct (String.eqb k k') eqn:E.
  - apply String.eqb_eq in E. subst k'.
    rewrite get_None_not_in.
    + apply get_set_eq.
    + by rewrite <- list_elem_of_In.
  - destruct (Dict.get k o); [done|].
    apply get_set_ne. intros ->. by rewrite String.eqb_refl in E.
Qed.

End Facts.
End DictFacts.

(** ** Serialization of a booking *)

Lemma to_dict_unset (b : Booking) (ci co : pyval) :
  bookingdates b = VDates ci co →
  additionalneeds b = VNone →
  to_dict b = Ok (wire_core b ci co).
Proof. intros Hd Ha. unfold to_dict. rewrite Hd, Ha. reflexivity. Qed.

Lemma to_dict_set (b : Booking) (ci co : pyval) :
  bookingdates b = VDates ci co →
  additionalneeds b ≠ VNone →
  to_dict b = Ok (wire_core b ci co ++ [("additionalneeds", additionalneeds b)])%list.
Proof.
  intros Hd Ha. unfold to_dict. rewrite Hd. simpl.
  destruct (additionalneeds b); try reflexivity. contradiction.
Qed.

(** A booking whose [bookingdates] is not a [BookingDates] instance cannot be
    serialized: reading the attribute fails. *)
Lemma to_dict_unstructured (b : Booking) :
  (∀ ci co, bookingdates b ≠ VDates ci co) →
  to_dict b = Raise (AttributeError "checkin").
Proof.
  intros Hd. unfold to_dict.
  destruct (bookingdates b) eqn:E; try reflexivity.
  exfalso. by eapply Hd.
Qed.

(** C1.  For every booking ([bookingdates] being a date range, as the
    dataclass declares), [to_dict] returns a dictionary whose keys are
    exactly firstname, lastname, totalprice, depositpaid and bookingdates,
    followed by additionalneeds when and only when that field is not
    [None]; each key maps to the field of that name, bookingdates to the
    nested dictionary with exactly the keys checkin and checkout, and an
    unset additionalneeds has no entry at all. *)
Theorem to_dict_wire_format (b : Booking) (ci co : pyval) :
  bookingdates b = VDates ci co →
  ∃ data,
    to_dict b = Ok data ∧
    Dict.keys data =
      (["firstname"; "lastname"; "totalprice"; "depositpaid"; "bookingdates"] ++
       (if is_none (additionalneeds b) then [] else ["additionalneeds"]))%list ∧
    Dict.get "firstname" data = Some (firstname b) ∧
    Dict.get "lastname" data = Some (lastname b) ∧
    Dict.get "totalprice" data = Some (totalprice b) ∧
    Dict.get "depositpaid" data = Some (depositpaid b) ∧
    Dict.get "bookingdates" data =
      Some (VDict [("checkin", ci); ("checkout", co)]) ∧
    Dict.get "additionalneeds" data =
      (if is_none (additionalneeds b) then None else Some (additionalneeds b)).
Proof.
  intros Hd.
  destruct (is_none (additionalneeds b)) eqn:Hn.
  - exists (wire_core b ci co). split.
    + apply to_dict_unset; [done|]. by destruct (additionalneeds b).
    + repeat split.
  - exists (wire_core b ci co ++ [("additionalneeds", additionalneeds b)])%list. split.
    + apply to_dict_set; [done|]. intros E. by rewrite E in Hn.
    + repeat split.
Qed.

Lemma to_dict_wire_format_witness :
  ∃ data,
    to_dict sample_booking = Ok data ∧
    Dict.keys data =
      (["firstname"; "lastname"; "totalprice"; "depositpaid"; "bookingdates"] ++
       (if is_none (additionalneeds sample_booking) then [] else ["additionalneeds"]))%list ∧
    Dict.get "firstname" data = Some (firstname sample_booking) ∧
    Dict.get "lastname" data = Some (lastname sample_booking) ∧
    Dict.get "totalprice" data = Some (totalprice sample_booking) ∧
    Dict.get "depositpaid" data = Some (depositpaid sample_booking) ∧
    Dict.get "bookingdates" data =
      Some (VDict [("checkin", VStr "2025-06-15"); ("checkout", VStr "2025-06-20")]) ∧
    Dict.get "additionalneeds" data =
      (if is_none (additionalneeds sample_booking) then None
       else Some (additionalneeds sample_booking)).
Proof.
  apply (to_dict_wire_format sample_booking (VStr "2025-06-15") (VStr "2025-06-20")).
  reflexivity.
Defined.

(** ** Test data factory *)

Lemma forallb_str_mem (l fields : list string) :
  Forall (λ k, In k fields) l → forallb (λ k, str_mem k fields) l = true.
Proof.
  intros H. apply forallb_forall. intros k Hk.
  rewrite Forall_forall in H. unfold str_mem. apply existsb_exists.
  exists k. split; [|apply String.eqb_refl].
  apply H. by apply list_elem_of_In.
Qed.

Lemma BookingDates_init_ok (raw : list (string * pyval)) :
  dates_override_ok (VDict raw) →
  BookingDates_init raw = Ok (structured_dates (VDict raw)).
Proof.
  intros (Hk & [ci Hci] & [co Hco]). unfold BookingDates_init.
  rewrite forallb_str_mem by done. simpl. by rewrite Hci, Hco.
Qed.

Lemma factory_keys (overrides : list (string * pyval)) :
  Forall (λ k, In k booking_fields) (Dict.keys overrides) →
  Dict.keys (Dict.update factory_defaults overrides) = booking_fields.
Proof. intros H. by rewrite DictFacts.keys_update. Qed.

(** C6, as amended.  For overrides that name Booking fields only (each at
    most once) and whose [bookingdates], when supplied, is a structured
    date range or a raw dictionary with exactly the keys checkin and
    checkout, [create_valid_booking] returns a booking: every field that is
    not overridden has its fixed default, every overridden field has the
    supplied value, a raw [bookingdates] dictionary is converted to the
    structured type, and the result's [bookingdates] is structured. *)
Theorem create_valid_booking_merges (overrides : list (string * pyval)) :
  NoDup (Dict.keys overrides) →
  Forall (λ k, In k booking_fields) (Dict.keys overrides) →
  (∀ v, Dict.get "bookingdates" overrides = Some v → dates_override_ok v) →
  ∃ b,
    create_valid_booking overrides = Ok b ∧
    firstname b = default (VStr "John") (Dict.get "firstname" overrides) ∧
    lastname b = default (VStr "Doe") (Dict.get "lastname" overrides) ∧
    totalprice b = default (VInt 150) (Dict.get "totalprice" overrides) ∧
    depositpaid b = default (VBool true) (Dict.get "depositpaid" overrides) ∧
    additionalneeds b =
      default (VStr "Breakfast") (Dict.get "additionalneeds" overrides) ∧
    bookingdates b =
      match Dict.get "bookingdates" overrides with
      | Some v => structured_dates v
      | None => VDates (VStr "2025-01-01") (VStr "2025-01-10")
      end ∧
    is_structured (bookingdates b).
Proof.
  intros Hnd Hkeys Hdates.
  pose proof (factory_keys overrides Hkeys) as Hk.
  assert (Hget : ∀ k, Dict.get k (Dict.update factory_defaults overrides) =
                      match Dict.get k overrides with
                      | Some v => Some v
                      | None => Dict.get k factory_defaults
                      end) by (intros k; by apply DictFacts.get_update).
  unfold create_valid_booking.
  set (merged := Dict.update factory_defaults overrides) in *.
  assert (Hfinish : ∀ dts kw,
            Dict.keys kw = booking_fields →
            (∀ k, k ≠ "bookingdates" → Dict.get k kw = Dict.get k merged) →
            Dict.get "bookingdates" kw = Some dts →
            Booking_init kw =
              Ok (mkBooking
                    (default (VStr "John") (Dict.get "firstname" overrides))
                    (default (VStr "Doe") (Dict.get "lastname" overrides))
                    (default (VInt 150) (Dict.get "totalprice" overrides))
                    (default (VBool true) (Dict.get "depositpaid" overrides))
                    dts
                    (default (VStr "Breakfast")
                       (Dict.get "additionalneeds" overrides)))).
  { intros dts kw Hkw Hsame Hd. unfold Booking_init. rewrite Hkw. simpl.
    rewrite (Hsame "firstname"), (Hsame "lastname"), (Hsame "totalprice"),
      (Hsame "depositpaid"), (Hsame "additionalneeds"), Hd, !Hget by done.
    destruct (Dict.get "firstname" overrides), (Dict.get "lastname" overrides),
      (Dict.get "totalprice" overrides), (Dict.get "depositpaid" overrides),
      (Dict.get "additionalneeds" overrides); reflexivity. }
  simpl. unfold py_getitem. rewrite (Hget "bookingdates").
  destruct (Dict.get "bookingdates" overrides) as [v|] eqn:Hv.
  - specialize (Hdates v eq_refl). simpl.
    destruct v; try contradiction.
    + rewrite BookingDates_init_ok by done. simpl.
      eexists. split.
      * apply Hfinish.
        -- rewrite DictFacts.keys_set_in; [done|]. rewrite Hk. simpl. tauto.
        -- intros k Hne. by apply DictFacts.get_set_ne.
        -- apply DictFacts.get_set_eq.
      * simpl. repeat split. by eexists _, _.
    + eexists. split.
      * apply Hfinish; [done|done|]. by rewrite Hget, Hv.
      * simpl. repeat split. by eexists _, _.
  - simpl. eexists. split.
    + apply Hfinish; [done|done|]. by rewrite Hget, Hv.
    + simpl. repeat split. by eexists _, _.
Qed.

Lemma create_valid_booking_merges_witness :
  ∃ b,
    create_valid_booking sample_overrides = Ok b ∧
    firstname b = VStr "ToDelete" ∧
    lastname b = VStr "Doe" ∧
    totalprice b = VInt 150 ∧
    depositpaid b = VBool true ∧
    additionalneeds b = VNone ∧
    bookingdates b = VDates (VStr "2025-03-01") (VStr "2025-03-05") ∧
    is_structured (bookingdates b).
Proof.
  apply (create_valid_booking_merges sample_overrides).
  - apply (bool_decide_unpack _). vm_compute. reflexivity.
  - repeat constructor; simpl; tauto.
  - intros v [= <-]. simpl. repeat split; [|by eexists..].
    repeat constructor; simpl; tauto.
Defined.

(** C6, as stated, fails: a raw date mapping that lacks a key and a keyword
    that is not a Booking field make the factory raise instead of returning
    a booking, and a [bookingdates] that is neither structured nor a mapping
    is passed through, so the result's [bookingdates] is not structured. *)
Lemma create_valid_booking_counterexample :
  create_valid_booking [("bookingdates", VDict [("checkin", VStr "2025-03-01")])]
    = Raise TypeError ∧
  create_valid_booking [("nickname", VStr "Jo")] = Raise TypeError ∧
  create_valid_booking [("bookingdates", VStr "2025-03-01")]
    = Ok (mkBooking (VStr "John") (VStr "Doe") (VInt 150) (VBool true)
            (VStr "2025-03-01") (VStr "Breakfast")).
Proof. repeat split. Qed.

(** ** Validation helpers *)








(** C7.  [assert_response_time] returns nothing exactly when the elapsed
    time of the response, in seconds, is less than the threshold, and raises
    an assertion failure exactly when it is not; a call without threshold
    behaves as a call with the threshold 5.0, so that 4.999999 seconds pass
    and 5 seconds do not. *)
Theorem assert_response_time_threshold (format_2f float_str : float → string)
    (r : Response) (max_seconds : option float) :
  let run := assert_response_time format_2f float_str in
  let under :=
    PrimFloat.ltb (total_seconds (elapsed r)) (default 5.0%float max_seconds) in
  (run r max_seconds = Ok tt ↔ under = true) ∧
  (is_assertion_error (run r max_seconds) = true ↔ under = false) ∧
  (run r max_seconds = Ok tt ∨ is_assertion_error (run r max_seconds) = true) ∧
  run r None = run r (Some 5.0%float) ∧
  run bare_response None = Ok tt ∧
  is_assertion_error (run slow_response None) = true.
Proof.
  simpl. unfold assert_response_time, py_assert.
  destruct (PrimFloat.ltb _ _); simpl; repeat split; try done; auto.
Qed.

Lemma str_in_empty (p : string) : str_in p EmptyString = true ↔ p = EmptyString.
Proof. destruct p; simpl; split; done. Qed.

(** C10.  When the headers of the response have no Content-Type entry,
    [assert_content_type] compares against the empty string: it returns
    nothing only for an empty expected substring and raises an assertion
    failure for every other one, the default application/json included. *)
Theorem assert_content_type_missing (r : Response) (expected : option string) :
  headers r !! lower "Content-Type" = None →
  headers_get (headers r) "Content-Type" EmptyString = EmptyString ∧
  (assert_content_type r expected = Ok tt ↔
     default "application/json" expected = EmptyString) ∧
  (default "application/json" expected ≠ EmptyString →
     assert_content_type r expected =
       Raise (AssertionError
                (content_type_msg (default "application/json" expected)
                   EmptyString))) ∧
  assert_content_type r None =
    Raise (AssertionError "Expected Content-Type 'application/json', got ''").
Proof.
  intros Hmiss.
  assert (Hget : headers_get (headers r) "Content-Type" EmptyString = EmptyString).
  { unfold headers_get. by rewrite Hmiss. }
  pose proof (str_in_empty (default "application/json" expected)) as Hin.
  split; [done|]. split; [|split].
  - unfold assert_content_type. rewrite Hget.
    destruct (str_in (default "application/json" expected) EmptyString) eqn:E.
    + split; [intros _; by apply Hin | done].
    + split; [discriminate|]. intros He. apply Hin in He. discriminate.
  - intros Hne. unfold assert_content_type. rewrite Hget.
    destruct (str_in (default "application/json" expected) EmptyString) eqn:E;
      [|done].
    exfalso. apply Hne. by apply Hin.
  - unfold assert_content_type. rewrite Hget. reflexivity.
Qed.

Lemma assert_content_type_missing_witness :
  headers_get (headers bare_response) "Content-Type" EmptyString = EmptyString ∧
  (assert_content_type bare_response (Some "json") = Ok tt ↔
     default "application/json" (Some "json") = EmptyString) ∧
  (default "application/json" (Some "json") ≠ EmptyString →
     assert_content_type bare_response (Some "json") =
       Raise (AssertionError
                (content_type_msg (default "application/json" (Some "json"))
                   EmptyString))) ∧
  assert_content_type bare_response None =
    Raise (AssertionError "Expected Content-Type 'application/json', got ''").
Proof.
  apply (assert_content_type_missing bare_response (Some "json")).
  reflexivity.
Defined.

(** ** HTTP client core and resource service *)

Section ServiceProperties.

Variable cfg : APIConfig.
Variable server : Type.
Variable handle : server → Request → server * outcome Response.
Variable format_2f : float → string.

Implicit Types (s : Service server) (o : outcome Response) (r : Response).

Ltac run_client :=
  unfold get, post, put, patch, delete, _url, _log_request, _log_response,
    read, logger, lift, set_token, session_request, mbind, M_bind, mret, M_ret;
  simpl.

(** Every verb of the client core makes exactly one call on the session
    and hands back what the session gave: the response as it is, whatever
    its status, or the transport error. *)
Lemma verbs_run s (path : string) (params json : option (list (string * pyval)))
    (headers : option (list (string * string))) (rm : server) o :
  (handle (remote s) (client_request s GET path params None headers) = (rm, o) →
   ∃ s', get handle format_2f path params headers s = (o, s') ∧
         stepped s s' (_token s) rm
           [client_request s GET path params None headers]) ∧
  (handle (remote s) (client_request s POST path None json headers) = (rm, o) →
   ∃ s', post handle format_2f path json headers s = (o, s') ∧
         stepped s s' (_token s) rm
           [client_request s POST path None json headers]) ∧
  (handle (remote s) (client_request s PUT path None json headers) = (rm, o) →
   ∃ s', put handle format_2f path json headers s = (o, s') ∧
         stepped s s' (_token s) rm
           [client_request s PUT path None json headers]) ∧
  (handle (remote s) (client_request s PATCH path None json headers) = (rm, o) →
   ∃ s', patch handle format_2f path json headers s = (o, s') ∧
         stepped s s' (_token s) rm
           [client_request s PATCH path None json headers]) ∧
  (handle (remote s) (client_request s DELETE path None None headers) = (rm, o) →
   ∃ s', delete handle format_2f path headers s = (o, s') ∧
         stepped s s' (_token s) rm
           [client_request s DELETE path None None headers]).
Proof.
  unfold client_request.
  repeat split; intros Hh; run_client; rewrite Hh; destruct o;
    (eexists; split; [reflexivity | by repeat split]).
Qed.

(** [authenticate] on a remote end that answers the call with a JSON
    object: the object's token field, [None] when it has none, is cached
    and returned. *)
Lemma authenticate_run s (username password : option string) (rm : server) r
    (d : list (string * pyval)) :
  handle (remote s) (auth_request cfg s username password) = (rm, Ok r) →
  json_body r = Some (VDict d) →
  ∃ s', authenticate cfg handle format_2f username password s =
          (Ok (default VNone (Dict.get "token" d)), s') ∧
        stepped s s' (default VNone (Dict.get "token" d)) rm
          [auth_request cfg s username password].
Proof.
  intros Hh Hj. unfold authenticate, auth_request, client_request in *.
  run_client. rewrite Hh. unfold response_json. rewrite Hj. simpl.
  eexists. split; [reflexivity | by repeat split].
Qed.

(** Whatever the remote end answers, [authenticate] makes exactly the one
    call that carries its payload. *)
Lemma authenticate_sent s (username password : option string) :
  sent (authenticate cfg handle format_2f username password s).2 =
    (sent s ++ [auth_request cfg s username password])%list.
Proof.
  unfold authenticate, auth_request, client_request. run_client.
  destruct (handle _ _) as [rm [r|e]]; simpl; [|done].
  unfold response_json. destruct (json_body r) as [body|]; simpl; [|done].
  destruct body; simpl; done.
Qed.

Lemma auth_headers_cached s :
  py_truthy (_token s) = true →
  auth_headers cfg handle format_2f s = (Ok (cookie_headers (_token s)), s).
Proof.
  intros Ht. unfold auth_headers. run_client. rewrite Ht. simpl.
  by destruct s.
Qed.

Lemma auth_headers_fetch s :
  py_truthy (_token s) = false →
  auth_headers cfg handle format_2f s =
    match authenticate cfg handle format_2f None None s with
    | (Ok _, s') => (Ok (cookie_headers (_token s')), s')
    | (Raise e, s') => (Raise e, s')
    end.
Proof.
  intros Ht. unfold auth_headers. run_client. rewrite Ht. simpl.
  destruct (authenticate _ _ _ _ _ _) as [[t|e] s']; simpl; [|done].
  by destruct s'.
Qed.

Lemma auth_headers_result s (hdrs : list (string * string)) s' :
  auth_headers cfg handle format_2f s = (Ok hdrs, s') →
  hdrs = cookie_headers (_token s').
Proof.
  intros Hrun. destruct (py_truthy (_token s)) eqn:Ht.
  - rewrite auth_headers_cached in Hrun by done. by injection Hrun as <- <-.
  - rewrite auth_headers_fetch in Hrun by done.
    destruct (authenticate _ _ _ _ _ _) as [[t|e] s1]; [|discriminate].
    by injection Hrun as <- <-.
Qed.

Lemma auth_headers_fetch_run s (rm : server) r (d : list (string * pyval)) :
  py_truthy (_token s) = false →
  handle (remote s) (auth_request cfg s None None) = (rm, Ok r) →
  json_body r = Some (VDict d) →
  ∃ s',
    auth_headers cfg handle format_2f s =
      (Ok (cookie_headers (default VNone (Dict.get "token" d))), s') ∧
    stepped s s' (default VNone (Dict.get "token" d)) rm
      [auth_request cfg s None None].
Proof.
  intros Ht Hh Hj.
  destruct (authenticate_run s None None rm r d Hh Hj) as (s' & Hrun & Hst).
  exists s'. rewrite auth_headers_fetch by done. rewrite Hrun.
  split; [|done]. destruct Hst as (_ & _ & _ & -> & _). done.
Qed.

(** C3, as amended.  Whenever [auth_headers] returns, the header map has
    the single entry Cookie, mapped to "token=" followed by the rendering of
    the token cached at that point.  With a cached token that is not falsy
    nothing else happens.  With no token (or a falsy one) [authenticate] is
    called first with the default credentials, which makes one call to the
    auth endpoint; when the answer is a JSON object, the value of its token
    field is cached and carried by the header, and [None] is cached when
    the object has no such field. *)
Theorem auth_headers_cookie s :
  (∀ hdrs s',
     auth_headers cfg handle format_2f s = (Ok hdrs, s') →
     hdrs = [("Cookie", "token=" ++ py_str (_token s'))]) ∧
  (py_truthy (_token s) = true →
     auth_headers cfg handle format_2f s =
       (Ok [("Cookie", "token=" ++ py_str (_token s))], s)) ∧
  (py_truthy (_token s) = false →
     sent (auth_headers cfg handle format_2f s).2 =
       (sent s ++ [auth_request cfg s None None])%list ∧
     ∀ rm r d,
       handle (remote s) (auth_request cfg s None None) = (rm, Ok r) →
       json_body r = Some (VDict d) →
       ∃ s',
         auth_headers cfg handle format_2f s =
           (Ok [("Cookie", "token=" ++ py_str (default VNone (Dict.get "token" d)))],
            s') ∧
         stepped s s' (default VNone (Dict.get "token" d)) rm
           [auth_request cfg s None None] ∧
         (∀ t, Dict.get "token" d = Some t → _token s' = t)).
Proof.
  split; [|split].
  - apply auth_headers_result.
  - apply auth_headers_cached.
  - intros Ht. split.
    + rewrite auth_headers_fetch by done.
      pose proof (authenticate_sent s None None) as Hs.
      by destruct (authenticate _ _ _ _ _ _) as [[t|e] s1].
    + intros rm r d Hh Hj.
      destruct (auth_headers_fetch_run s rm r d Ht Hh Hj) as (s' & Hrun & Hst).
      exists s'. split; [done|]. split; [done|].
      intros t Hget. destruct Hst as (_ & _ & _ & -> & _). by rewrite Hget.
Qed.

(** C8.  When the answer to the authentication call is a JSON object
    without a token field, [authenticate] caches [None] and returns [None]
    without raising, having made its one call; a following read of
    [auth_headers] authenticates again, with one more call to the auth
    endpoint carrying the default credentials, and, given the same answer,
    returns the header map whose Cookie entry is "token=None", [None]
    being cached still. *)
Theorem authenticate_without_token s (username password : option string)
    (rm : server) r (d : list (string * pyval)) :
  handle (remote s) (auth_request cfg s username password) = (rm, Ok r) →
  json_body r = Some (VDict d) →
  Dict.get "token" d = None →
  ∃ s1,
    authenticate cfg handle format_2f username password s = (Ok VNone, s1) ∧
    _token s1 = VNone ∧
    stepped s s1 VNone rm [auth_request cfg s username password] ∧
    ∀ rm2,
      handle (remote s1) (auth_request cfg s1 None None) = (rm2, Ok r) →
      ∃ s2,
        auth_headers cfg handle format_2f s1 = (Ok [("Cookie", "token=None")], s2) ∧
        _token s2 = VNone ∧
        stepped s1 s2 VNone rm2 [auth_request cfg s1 None None] ∧
        sent s2 =
          (sent s ++ [auth_request cfg s username password;
                      auth_request cfg s None None])%list.
Proof.
  intros Hh Hj Hnone.
  destruct (authenticate_run s username password rm r d Hh Hj) as (s1 & Hrun & Hst).
  rewrite Hnone in Hrun, Hst. simpl in Hrun, Hst.
  pose proof Hst as (Hb & _ & Hto & Htok & _ & Hsent).
  exists s1. split; [done|]. split; [done|]. split; [done|].
  intros rm2 Hh2.
  assert (Ht : py_truthy (_token s1) = false) by (by rewrite Htok).
  destruct (auth_headers_fetch_run s1 rm2 r d Ht Hh2 Hj) as (s2 & Hrun2 & Hst2).
  rewrite Hnone in Hrun2, Hst2. simpl in Hrun2, Hst2.
  pose proof Hst2 as (_ & _ & _ & Htok2 & _ & Hsent2).
  exists s2. split; [done|]. split; [done|]. split; [done|].
  rewrite Hsent2, Hsent, <- app_assoc. simpl.
  unfold auth_request, client_request. by rewrite Hb, Hto.
Qed.

(** C9.  [authenticate] treats an empty username or password as an omitted
    one: the call runs exactly as with the argument left out, and the
    payload it sends carries the configured default in its place. *)
Theorem authenticate_empty_credentials s (username password : option string) :
  authenticate cfg handle format_2f (Some EmptyString) password s =
    authenticate cfg handle format_2f None password s ∧
  authenticate cfg handle format_2f username (Some EmptyString) s =
    authenticate cfg handle format_2f username None s ∧
  Dict.get "username" (auth_payload cfg (Some EmptyString) password) =
    Some (VStr (AUTH_USERNAME cfg)) ∧
  Dict.get "password" (auth_payload cfg username (Some EmptyString)) =
    Some (VStr (AUTH_PASSWORD cfg)) ∧
  sent (authenticate cfg handle format_2f (Some EmptyString) (Some EmptyString) s).2 =
    (sent s ++
     [client_request s POST AUTH_ENDPOINT None
        (Some [("username", VStr (AUTH_USERNAME cfg));
               ("password", VStr (AUTH_PASSWORD cfg))]) None])%list.
Proof.
  repeat split. apply authenticate_sent.
Qed.

Lemma booking_ids_params_keys (firstname lastname checkin checkout : option string)
    (k : string) :
  In k (Dict.keys (booking_ids_params firstname lastname checkin checkout)) →
  In k ["firstname"; "lastname"; "checkin"; "checkout"].
Proof.
  destruct firstname as [[|? ?]|], lastname as [[|? ?]|],
    checkin as [[|? ?]|], checkout as [[|? ?]|]; simpl; tauto.
Qed.

(** C4.  The query of [get_booking_ids] has, for each of the four filters,
    an entry under the filter's name with the given value when the filter
    is given and not empty, and no entry when it is omitted or empty; it
    has no other key; and this query is what the one GET call to the
    collection endpoint carries. *)
Theorem get_booking_ids_query (firstname lastname checkin checkout : option string) :
  let params := booking_ids_params firstname lastname checkin checkout in
  Dict.get "firstname" params = filter_value firstname ∧
  Dict.get "lastname" params = filter_value lastname ∧
  Dict.get "checkin" params = filter_value checkin ∧
  Dict.get "checkout" params = filter_value checkout ∧
  (∀ k, ¬ In k ["firstname"; "lastname"; "checkin"; "checkout"] →
        Dict.get k params = None) ∧
  NoDup (Dict.keys params) ∧
  (∀ s rm o,
     handle (remote s) (client_request s GET ENDPOINT (Some params) None None)
       = (rm, o) →
     ∃ s',
       get_booking_ids handle format_2f firstname lastname checkin checkout s
         = (o, s') ∧
       stepped s s' (_token s) rm
         [client_request s GET ENDPOINT (Some params) None None]).
Proof.
  simpl. repeat apply conj.
  - destruct firstname as [[|? ?]|], lastname as [[|? ?]|],
      checkin as [[|? ?]|], checkout as [[|? ?]|]; reflexivity.
  - destruct firstname as [[|? ?]|], lastname as [[|? ?]|],
      checkin as [[|? ?]|], checkout as [[|? ?]|]; reflexivity.
  - destruct firstname as [[|? ?]|], lastname as [[|? ?]|],
      checkin as [[|? ?]|], checkout as [[|? ?]|]; reflexivity.
  - destruct firstname as [[|? ?]|], lastname as [[|? ?]|],
      checkin as [[|? ?]|], checkout as [[|? ?]|]; reflexivity.
  - intros k Hk. apply DictFacts.get_None_not_in.
    intros Hin. apply Hk. by eapply booking_ids_params_keys.
  - destruct firstname as [[|? ?]|], lastname as [[|? ?]|],
      checkin as [[|? ?]|], checkout as [[|? ?]|];
      apply (bool_decide_unpack _); vm_compute; reflexivity.
  - intros s rm o Hh. unfold get_booking_ids.
    by apply (verbs_run s ENDPOINT _ None None rm o).
Qed.

(** C5.  Each operation on bookings makes one call through the client
    core and returns what that call gave, unchanged: the response, whatever
    its status, or the error the session raised.  The calls of
    [update_booking], [partial_update_booking] and [delete_booking] carry
    the headers [auth_headers] returned, that is the Cookie entry with the
    cached token; the calls of [create_booking], [get_booking] and
    [get_booking_ids] carry no headers of their own. *)
Theorem operations_return_raw_response s (booking_id : Z) (rm : server) o :
  (∀ firstname lastname checkin checkout,
     let req := client_request s GET ENDPOINT
                  (Some (booking_ids_params firstname lastname checkin checkout))
                  None None in
     handle (remote s) req = (rm, o) →
     ∃ s', get_booking_ids handle format_2f firstname lastname checkin checkout s
             = (o, s') ∧
           stepped s s' (_token s) rm [req]) ∧
  (let req := client_request s GET (booking_path booking_id) None None None in
   handle (remote s) req = (rm, o) →
   ∃ s', get_booking handle format_2f booking_id s = (o, s') ∧
         stepped s s' (_token s) rm [req]) ∧
  (∀ booking body,
     let req := client_request s POST ENDPOINT None (Some body) None in
     to_dict booking = Ok body →
     handle (remote s) req = (rm, o) →
     ∃ s', create_booking handle format_2f booking s = (o, s') ∧
           stepped s s' (_token s) rm [req]) ∧
  (∀ booking body hdrs s1,
     let req := client_request s1 PUT (booking_path booking_id) None (Some body)
                  (Some [("Cookie", "token=" ++ py_str (_token s1))]) in
     to_dict booking = Ok body →
     auth_headers cfg handle format_2f s = (Ok hdrs, s1) →
     handle (remote s1) req = (rm, o) →
     ∃ s', update_booking cfg handle format_2f booking_id booking s = (o, s') ∧
           stepped s1 s' (_token s1) rm [req]) ∧
  (∀ data hdrs s1,
     let req := client_request s1 PATCH (booking_path booking_id) None (Some data)
                  (Some [("Cookie", "token=" ++ py_str (_token s1))]) in
     auth_headers cfg handle format_2f s = (Ok hdrs, s1) →
     handle (remote s1) req = (rm, o) →
     ∃ s', partial_update_booking cfg handle format_2f booking_id data s = (o, s') ∧
           stepped s1 s' (_token s1) rm [req]) ∧
  (∀ hdrs s1,
     let req := client_request s1 DELETE (booking_path booking_id) None None
                  (Some [("Cookie", "token=" ++ py_str (_token s1))]) in
     auth_headers cfg handle format_2f s = (Ok hdrs, s1) →
     handle (remote s1) req = (rm, o) →
     ∃ s', delete_booking cfg handle format_2f booking_id s = (o, s') ∧
           stepped s1 s' (_token s1) rm [req]).
Proof.
  repeat apply conj; simpl.
  - intros firstname lastname checkin checkout Hh. unfold get_booking_ids.
    by apply (verbs_run s ENDPOINT _ None None rm o).
  - intros Hh. unfold get_booking.
    by apply (verbs_run s (booking_path booking_id) None None None rm o).
  - intros booking body Hd Hh. unfold create_booking, lift.
    unfold mbind at 1, M_bind. rewrite Hd.
    by apply (verbs_run s ENDPOINT None (Some body) None rm o).
  - intros booking body hdrs s1 Hd Ha Hh.
    rewrite (auth_headers_result s hdrs s1 Ha) in Ha.
    unfold update_booking, lift. unfold mbind at 1 2, M_bind. rewrite Hd, Ha.
    by apply (verbs_run s1 (booking_path booking_id) None (Some body) _ rm o).
  - intros data hdrs s1 Ha Hh.
    rewrite (auth_headers_result s hdrs s1 Ha) in Ha.
    unfold partial_update_booking. unfold mbind at 1, M_bind. rewrite Ha.
    by apply (verbs_run s1 (booking_path booking_id) None (Some data) _ rm o).
  - intros hdrs s1 Ha Hh.
    rewrite (auth_headers_result s hdrs s1 Ha) in Ha.
    unfold delete_booking. unfold mbind at 1, M_bind. rewrite Ha.
    by apply (verbs_run s1 (booking_path booking_id) None None _ rm o).
Qed.

End ServiceProperties.

(** ** The properties on concrete remote ends *)

Lemma auth_headers_cookie_witness :
  ∃ s',
    auth_headers demo_cfg granting demo_format fresh_service =
      (Ok [("Cookie", "token=abc123")], s') ∧
    _token s' = VStr "abc123".
Proof.
  destruct (auth_headers_cookie demo_cfg nat granting demo_format fresh_service)
    as (_ & _ & Hfetch).
  destruct (Hfetch eq_refl) as [_ Hrun].
  destruct (Hrun 1%nat token_response [("token", VStr "abc123")] eq_refl eq_refl)
    as (s' & Heq & _ & Htok).
  exists s'. split; [exact Heq|]. apply Htok. reflexivity.
Defined.

(** C3, as stated, fails: when the answer to the authentication call
    carries no token, the read of [auth_headers] leaves [None] cached, and
    the header it returns reads "token=None". *)
Lemma auth_headers_counterexample :
  _token fresh_service = VNone ∧
  (auth_headers demo_cfg refusing demo_format fresh_service).1 =
    Ok [("Cookie", "token=None")] ∧
  _token (auth_headers demo_cfg refusing demo_format fresh_service).2 = VNone ∧
  sent (auth_headers demo_cfg refusing demo_format fresh_service).2 =
    [auth_request demo_cfg fresh_service None None].
Proof. repeat split. Qed.

Lemma authenticate_without_token_witness :
  ∃ s1,
    authenticate demo_cfg refusing demo_format (Some "admin") (Some "wrong")
      fresh_service = (Ok VNone, s1) ∧
    _token s1 = VNone ∧
    ∃ s2,
      auth_headers demo_cfg refusing demo_format s1 =
        (Ok [("Cookie", "token=None")], s2) ∧
      _token s2 = VNone ∧
      sent s2 =
        [auth_request demo_cfg fresh_service (Some "admin") (Some "wrong");
         auth_request demo_cfg fresh_service None None].
Proof.
  destruct (authenticate_without_token demo_cfg nat refusing demo_format
              fresh_service (Some "admin") (Some "wrong") 1%nat refusal_response
              [("reason", VStr "Bad credentials")] eq_refl eq_refl eq_refl)
    as (s1 & Hrun & Htok & Hst & Hnext).
  exists s1. split; [exact Hrun|]. split; [exact Htok|].
  destruct (Hnext (S (remote s1)) eq_refl) as (s2 & Hrun2 & Htok2 & _ & Hsent).
  exists s2. split; [exact Hrun2|]. split; [exact Htok2 | exact Hsent].
Defined.

Lemma operations_return_raw_response_witness :
  ∃ s',
    update_booking demo_cfg granting demo_format 7 sample_booking fresh_service =
      (Ok token_response, s') ∧
    sent s' =
      [ auth_request demo_cfg fresh_service None None;
        client_request fresh_service PUT "/booking/7" None
          (Some (wire_core sample_booking (VStr "2025-06-15") (VStr "2025-06-20")))
          (Some [("Cookie", "token=abc123")]) ].
Proof.
  destruct (operations_return_raw_response demo_cfg nat granting demo_format
              fresh_service 7 2%nat (Ok token_response))
    as (_ & _ & _ & Hupdate & _).
  destruct (Hupdate sample_booking
              (wire_core sample_booking (VStr "2025-06-15") (VStr "2025-06-20"))
              [("Cookie", "token=abc123")]
              (auth_headers demo_cfg granting demo_format fresh_service).2
              eq_refl eq_refl eq_refl)
    as (s' & Hrun & Hst).
  exists s'. split; [exact Hrun|].
  destruct Hst as (_ & _ & _ & _ & _ & Hsent). exact Hsent.
Defined.

(** * Further properties *)

(** ** Induction on values *)

Section PyvalInduction.

Variable P : pyval → Prop.
Hypothesis HNone : P VNone.
Hypothesis HBool : ∀ b, P (VBool b).
Hypothesis HInt : ∀ n, P (VInt n).
Hypothesis HStr : ∀ s, P (VStr s).
Hypothesis HList : ∀ l, Forall P l → P (VList l).
Hypothesis HDict : ∀ d, Forall (λ kv, P kv.2) d → P (VDict d).
Hypothesis HDates : ∀ ci co, P ci → P co → P (VDates ci co).


End PyvalInduction.


Lemma get_Some_In {V : Type} (d : list (string * V)) (k : string) (v : V) :
  Dict.get k d = Some v → In (k, v) d.
Proof.
  induction d as [|[k' v'] d IH]; simpl; [done|].
  destruct (String.eqb k k') eqn:E.
  - apply String.eqb_eq in E. subst k'. intros [= ->]. by left.
  - intros H. right. by apply IH.
Qed.







(** ** Validation helpers, further *)



Lemma assert_dates_sound (booking_data items : list (string * pyval)) :
  assert_dates booking_data items = Ok tt →
  ∀ dk dv, In (dk, dv) items →
    ∃ dates actual,
      Dict.get "bookingdates" booking_data = Some (VDict dates) ∧
      Dict.get dk dates = Some actual ∧ py_eq actual dv = true.
Proof.
  induction items as [|[k v] items IH]; [done|].
  simpl. unfold py_getitem at 1.
  destruct (Dict.get "bookingdates" booking_data) as [dates_v|] eqn:Hbd; [|done].
  simpl. unfold py_getitem.
  destruct dates_v as [| | | | |dates|]; try done.
  destruct (Dict.get k dates) as [actual|] eqn:Hact; [|done]. simpl.
  destruct (py_eq actual v) eqn:Heq; [|done]. simpl.
  intros Hrest dk dv [[= <- <-]|Hin].
  - by exists dates, actual.
  - by apply IH.
Qed.

(** X2.  Success of [assert_booking_fields] is sound, whatever the
    arguments: when it returns, every expected field other than
    bookingdates is present in the booking data with an equal value, and an
    expected bookingdates is a dictionary each of whose dates is present,
    with an equal value, in the dictionary the booking data has under
    bookingdates. *)
Theorem assert_booking_fields_sound (booking_data expected : list (string * pyval)) :
  assert_booking_fields booking_data expected = Ok tt →
  ∀ key value, In (key, value) expected →
    if String.eqb key "bookingdates"
    then ∃ items,
           value = VDict items ∧
           ∀ dk dv, In (dk, dv) items →
             ∃ dates actual,
               Dict.get "bookingdates" booking_data = Some (VDict dates) ∧
               Dict.get dk dates = Some actual ∧ py_eq actual dv = true
    else ∃ actual,
           Dict.get key booking_data = Some actual ∧ py_eq actual value = true.
Proof.
  induction expected as [|[k v] expected IH]; [done|].
  simpl. intros Hrun key value Hin.
  destruct (String.eqb k "bookingdates") eqn:Ek.
  - destruct v as [| | | | |items|]; try done. simpl in Hrun.
    destruct (assert_dates booking_data items) as [[]|e] eqn:Hd; [|done].
    simpl in Hrun. destruct Hin as [[= <- <-]|Hin]; [|by apply IH].
    rewrite Ek. exists items. split; [done|]. by apply assert_dates_sound.
  - unfold py_getitem in Hrun.
    destruct (Dict.get k booking_data) as [actual|] eqn:Hact; [|done].
    simpl in Hrun. destruct (py_eq actual v) eqn:Heq; [|done]. simpl in Hrun.
    destruct Hin as [[= <- <-]|Hin]; [|by apply IH].
    rewrite Ek. by exists actual.
Qed.

Lemma assert_booking_fields_sound_witness :
  ∃ actual,
    Dict.get "lastname" echoed_booking = Some actual ∧
    py_eq actual (VStr "Doe") = true.
Proof.
  exact (assert_booking_fields_sound echoed_booking
           [("firstname", VStr "John"); ("lastname", VStr "Doe")] eq_refl
           "lastname" (VStr "Doe") (or_intror (or_introl eq_refl))).
Defined.

(** X3.  Checking a concatenation of expectations is checking the first
    part and then the second: the outcome is the first failure met, and
    success needs both parts to succeed. *)
Theorem assert_booking_fields_app (booking_data e1 e2 : list (string * pyval)) :
  assert_booking_fields booking_data (e1 ++ e2)%list =
    match assert_booking_fields booking_data e1 with
    | Ok _ => assert_booking_fields booking_data e2
    | Raise e => Raise e
    end.
Proof.
  induction e1 as [|[k v] e1 IH]; [done|].
  simpl.
  destruct (if String.eqb k "bookingdates" then _ else _) as [[]|e]; simpl;
    [apply IH | done].
Qed.

(** X4.  [assert_json_value] returns only on a response whose body is a
    JSON object that has the key with an equal value; in particular a
    body that is a list or a string never passes, even when it contains
    the key.  Whenever it returns, [assert_json_key_exists] returns too. *)
Theorem assert_json_value_sound (r : Response) (key : string) (value : pyval) :
  assert_json_value r key value = Ok tt →
  (∃ d actual,
     json_body r = Some (VDict d) ∧
     Dict.get key d = Some actual ∧ py_eq actual value = true) ∧
  assert_json_key_exists r key = Ok tt.
Proof.
  unfold assert_json_value, assert_json_key_exists, response_json.
  destruct (json_body r) as [data|]; [|done]. simpl.
  destruct (py_contains key data) as [present|e] eqn:Hin; [|done]. simpl.
  destruct present; [|done]. simpl.
  intros Hrun.
  destruct data as [| | | | |d|]; try done. simpl in Hrun.
  destruct (Dict.get key d) as [actual|] eqn:Hget; [|done]. simpl in Hrun.
  destruct (py_eq actual value) eqn:Heq; [|done].
  split; [|done]. by exists d, actual.
Qed.

Lemma assert_json_value_sound_witness :
  (∃ d actual,
     json_body token_response = Some (VDict d) ∧
     Dict.get "token" d = Some actual ∧ py_eq actual (VStr "abc123") = true) ∧
  assert_json_key_exists token_response "token" = Ok tt.
Proof.
  exact (assert_json_value_sound token_response "token" (VStr "abc123") eq_refl).
Defined.

(** X5.  On a body that is a JSON list, [assert_json_value] never
    returns: it fails the assertion when the key is not an element of the
    list, and raises a [TypeError] when it is, the list not being
    subscriptable by a string. *)
Theorem assert_json_value_on_list (r : Response) (key : string) (value : pyval)
    (l : list pyval) :
  json_body r = Some (VList l) →
  assert_json_value r key value =
    if existsb (λ item, py_eq item (VStr key)) l
    then Raise TypeError
    else Raise (AssertionError (key_not_found_msg key (VList l))).
Proof.
  intros Hj. unfold assert_json_value, response_json. rewrite Hj. simpl.
  by destruct (existsb _ l).
Qed.

Lemma assert_json_value_on_list_witness :
  assert_json_value
    (mkResponse 200 "[]" (Some (VList [VStr "bookingid"])) ∅ (mkTimedelta 0 0 1))
    "bookingid" (VInt 1) = Raise TypeError.
Proof.
  exact (assert_json_value_on_list
           (mkResponse 200 "[]" (Some (VList [VStr "bookingid"])) ∅
              (mkTimedelta 0 0 1))
           "bookingid" (VInt 1) [VStr "bookingid"] eq_refl).
Defined.

Lemma str_prefix_app (p s : string) : str_prefix p (p ++ s) = true.
Proof. induction p as [|c p IH]; simpl; [done|]. by rewrite Ascii.eqb_refl. Qed.

Lemma str_prefix_split (p s : string) :
  str_prefix p s = true → ∃ rest, s = p ++ rest.
Proof.
  revert s. induction p as [|c p IH]; intros s; simpl.
  - intros _. by exists s.
  - destruct s as [|c' s]; [done|].
    intros [Hc Hp]%andb_prop. apply Ascii.eqb_eq in Hc. subst c'.
    destruct (IH s Hp) as [rest ->]. by exists rest.
Qed.

(** [str_in] is the test of Python's [in] on strings: [p] occurs in [s]
    as a contiguous run of characters. *)
Lemma str_in_spec (p s : string) :
  str_in p s = true ↔ ∃ before after, s = before ++ p ++ after.
Proof.
  split.
  - induction s as [|c s IH].
    + destruct p; [|done]. intros _. by exists EmptyString, EmptyString.
    + cbn [str_in]. intros [Hp|Hs]%orb_prop.
      * destruct (str_prefix_split _ _ Hp) as [rest ->].
        by exists EmptyString, rest.
      * destruct (IH Hs) as (before & after & ->).
        by exists (String c before), after.
  - intros (before & after & ->).
    induction before as [|c before IH].
    + assert (Hpre : ∀ t, str_prefix p t = true → str_in p t = true)
        by (intros t Ht; destruct t; simpl; by rewrite Ht).
      change (EmptyString ++ p ++ after) with (p ++ after).
      apply Hpre. apply str_prefix_app.
    + change (String c before ++ p ++ after)
        with (String c (before ++ p ++ after)).
      cbn [str_in]. rewrite IH. apply orb_true_r.
Qed.

(** X6.  [assert_content_type] tests for a substring, not for equality:
    on a response that has a Content-Type header it returns exactly when
    the expected text occurs somewhere in the header value, so a value
    with parameters after the media type passes. *)
Theorem assert_content_type_substring (r : Response) (expected name value : string) :
  headers r !! lower "Content-Type" = Some (name, value) →
  assert_content_type r (Some expected) = Ok tt ↔
  ∃ before after, value = before ++ expected ++ after.
Proof.
  intros Hh. unfold assert_content_type, headers_get. rewrite Hh. simpl.
  rewrite <- str_in_spec.
  destruct (str_in expected value); simpl; split; done.
Qed.

Lemma assert_content_type_substring_witness :
  assert_content_type json_response (Some "application/json") = Ok tt ↔
  ∃ before after,
    "application/json; charset=utf-8" = before ++ "application/json" ++ after.
Proof.
  apply (assert_content_type_substring json_response "application/json"
           "Content-Type" "application/json; charset=utf-8").
  vm_compute. reflexivity.
Defined.

Lemma str_take_spec (n : nat) (s : string) :
  String.length (str_take n s) = Nat.min n (String.length s) ∧
  ∃ rest, s = str_take n s ++ rest.
Proof.
  revert s. induction n as [|n IH]; intros s.
  - split; [done|]. by exists s.
  - destruct s as [|c s]; [split; [done|]; by exists EmptyString|].
    destruct (IH s) as [Hlen [rest Hrest]]. simpl. split; [by rewrite Hlen|].
    exists rest. rewrite Hrest at 1. reflexivity.
Qed.

(** X7.  The failure message of [assert_status_code] names the expected
    and the actual status and then shows the beginning of the body: its
    first 300 characters, or the whole body when it is shorter. *)
Theorem assert_status_code_message (r : Response) (expected : Z) :
  status_code r ≠ expected →
  ∃ shown rest,
    assert_status_code r expected =
      Raise (AssertionError
               ("Expected status " ++ pretty expected ++ ", got " ++
                pretty (status_code r) ++ ". Response: " ++ shown)) ∧
    text r = shown ++ rest ∧
    String.length shown = Nat.min 300 (String.length (text r)).
Proof.
  intros Hne. destruct (str_take_spec 300 (text r)) as [Hlen [rest Hrest]].
  exists (str_take 300 (text r)), rest. split; [|done].
  unfold assert_status_code.
  destruct (Z.eqb (status_code r) expected) eqn:E; [|done].
  apply Z.eqb_eq in E. contradiction.
Qed.

Lemma assert_status_code_message_witness :
  ∃ shown rest,
    assert_status_code refusal_response 404 =
      Raise (AssertionError
               ("Expected status " ++ pretty 404%Z ++ ", got " ++
                pretty (status_code refusal_response) ++ ". Response: " ++ shown)) ∧
    text refusal_response = shown ++ rest ∧
    String.length shown = Nat.min 300 (String.length (text refusal_response)).
Proof.
  apply (assert_status_code_message refusal_response 404). discriminate.
Defined.

(** ** Test data factory, further *)

Lemma keys_set_incl {V : Type} (d : list (string * V)) (k k' : string) (v : V) :
  In k (Dict.keys d) ∨ k = k' → In k (Dict.keys (Dict.set k' v d)).
Proof.
  induction d as [|[k2 v2] d IH]; simpl.
  - intros [[]| ->]. by left.
  - destruct (String.eqb k' k2) eqn:E; simpl.
    + apply String.eqb_eq in E. subst k2. intros [[->|Hin]| ->]; auto.
    + intros [[->|Hin]| ->]; auto.
Qed.

Lemma keys_update_incl {V : Type} (o d : list (string * V)) (k : string) :
  In k (Dict.keys d) ∨ In k (Dict.keys o) → In k (Dict.keys (Dict.update d o)).
Proof.
  unfold Dict.update. revert d.
  induction o as [|[k' v'] o IH]; intros d; simpl; [tauto|].
  intros [Hd|[->|Ho]]; apply IH; auto using keys_set_incl.
Qed.

Lemma str_mem_In (k : string) (l : list string) : str_mem k l = true → In k l.
Proof.
  unfold str_mem. intros (x & Hin & Heq)%existsb_exists.
  apply String.eqb_eq in Heq. by subst x.
Qed.

Lemma forallb_str_mem_inv (l fields : list string) :
  forallb (λ k, str_mem k fields) l = true → Forall (λ k, In k fields) l.
Proof.
  intros H. apply Forall_forall. intros k Hk%list_elem_of_In.
  rewrite forallb_forall in H. by apply str_mem_In, H.
Qed.

Lemma Booking_init_inv (kw : list (string * pyval)) (b : Booking) :
  Booking_init kw = Ok b →
  Forall (λ k, In k booking_fields) (Dict.keys kw) ∧
  Dict.get "bookingdates" kw = Some (bookingdates b) ∧
  additionalneeds b = default VNone (Dict.get "additionalneeds" kw).
Proof.
  unfold Booking_init.
  destruct (forallb _ (Dict.keys kw)) eqn:Hk; [|done].
  destruct (Dict.get "firstname" kw), (Dict.get "lastname" kw),
    (Dict.get "totalprice" kw), (Dict.get "depositpaid" kw),
    (Dict.get "bookingdates" kw); try done.
  intros [= <-]. split; [|done].
  exact (forallb_str_mem_inv _ booking_fields Hk).
Qed.

Lemma BookingDates_init_inv (raw : list (string * pyval)) (v : pyval) :
  BookingDates_init raw = Ok v →
  dates_override_ok (VDict raw) ∧ v = structured_dates (VDict raw).
Proof.
  unfold BookingDates_init.
  destruct (forallb _ (Dict.keys raw)) eqn:Hk; [|done].
  destruct (Dict.get "checkin" raw) as [ci|] eqn:Hci; [|done].
  destruct (Dict.get "checkout" raw) as [co|] eqn:Hco; [|done].
  intros [= <-]. split.
  - split; [exact (forallb_str_mem_inv _ dates_fields Hk)|].
    rewrite Hci, Hco. split; by eexists.
  - simpl. by rewrite Hci, Hco.
Qed.

(** Whenever the factory returns a booking, it built it from the merged
    keyword arguments, a raw date mapping among them having been replaced
    by its structured form. *)
Lemma create_valid_booking_inv (overrides : list (string * pyval)) (b : Booking) :
  create_valid_booking overrides = Ok b →
  ∃ kw,
    Booking_init kw = Ok b ∧
    ((∃ raw,
        Dict.get "bookingdates" (Dict.update factory_defaults overrides)
          = Some (VDict raw) ∧
        dates_override_ok (VDict raw) ∧
        kw = Dict.set "bookingdates" (structured_dates (VDict raw))
               (Dict.update factory_defaults overrides)) ∨
     ((∀ raw, Dict.get "bookingdates" (Dict.update factory_defaults overrides)
              ≠ Some (VDict raw)) ∧
      kw = Dict.update factory_defaults overrides)).
Proof.
  unfold create_valid_booking.
  set (merged := Dict.update factory_defaults overrides).
  unfold py_getitem.
  destruct (Dict.get "bookingdates" merged) as [dates|] eqn:Hd; [|done].
  simpl. intros Hrun.
  destruct dates as [| | | | |raw|];
    try (exists merged; split; [exact Hrun|]; right; split; [|done];
         intros raw'; discriminate).
  destruct (BookingDates_init raw) as [v|e] eqn:Hinit; [|done].
  simpl in Hrun. destruct (BookingDates_init_inv raw v Hinit) as [Hok ->].
  eexists. split; [exact Hrun|]. left. by exists raw.
Qed.

(** X8.  The factory returns a booking only for keyword arguments that it
    can merge: when it returns, every keyword is a Booking field, and a
    [bookingdates] given as a raw dictionary has the keys checkin and
    checkout and no other. *)
Theorem create_valid_booking_only_if (overrides : list (string * pyval))
    (b : Booking) :
  NoDup (Dict.keys overrides) →
  create_valid_booking overrides = Ok b →
  Forall (λ k, In k booking_fields) (Dict.keys overrides) ∧
  (∀ raw, Dict.get "bookingdates" overrides = Some (VDict raw) →
          dates_override_ok (VDict raw)).
Proof.
  intros Hnd Hrun.
  destruct (create_valid_booking_inv overrides b Hrun) as (kw & Hinit & Hkw).
  destruct (Booking_init_inv kw b Hinit) as (Hkeys & _ & _).
  assert (Hmerged : Forall (λ k, In k booking_fields)
                      (Dict.keys (Dict.update factory_defaults overrides))).
  { destruct Hkw as [(raw & _ & _ & ->)|[_ ->]]; [|done].
    apply Forall_forall. intros k Hk%list_elem_of_In.
    rewrite Forall_forall in Hkeys. apply Hkeys, list_elem_of_In.
    apply keys_set_incl. by left. }
  split.
  - apply Forall_forall. intros k Hk%list_elem_of_In.
    rewrite Forall_forall in Hmerged. apply Hmerged, list_elem_of_In.
    apply keys_update_incl. by right.
  - intros raw Hraw.
    assert (Hget : Dict.get "bookingdates" (Dict.update factory_defaults overrides)
                   = Some (VDict raw))
      by (by rewrite DictFacts.get_update, Hraw).
    destruct Hkw as [(raw' & Hget' & Hok & _)|[Hno _]].
    + rewrite Hget in Hget'. by injection Hget' as <-.
    + by destruct (Hno raw).
Qed.

Lemma create_valid_booking_only_if_witness :
  Forall (λ k, In k booking_fields) (Dict.keys sample_overrides) ∧
  (∀ raw, Dict.get "bookingdates" sample_overrides = Some (VDict raw) →
          dates_override_ok (VDict raw)).
Proof.
  apply (create_valid_booking_only_if sample_overrides
           (mkBooking (VStr "ToDelete") (VStr "Doe") (VInt 150) (VBool true)
              (VDates (VStr "2025-03-01") (VStr "2025-03-05")) VNone)).
  - apply (bool_decide_unpack _). vm_compute. reflexivity.
  - reflexivity.
Defined.

(** X9.  The booking the factory returns never holds a raw dictionary as
    its [bookingdates]: a dictionary is either converted or rejected. *)
Theorem create_valid_booking_never_raw (overrides : list (string * pyval))
    (b : Booking) :
  create_valid_booking overrides = Ok b →
  is_dict (bookingdates b) = false.
Proof.
  intros Hrun.
  destruct (create_valid_booking_inv overrides b Hrun) as (kw & Hinit & Hkw).
  destruct (Booking_init_inv kw b Hinit) as (_ & Hdates & _).
  destruct (bookingdates b) as [| | | | |raw|] eqn:Hb; try done.
  destruct Hkw as [(raw' & _ & _ & ->)|[Hno ->]].
  - rewrite DictFacts.get_set_eq in Hdates. discriminate.
  - by destruct (Hno raw).
Qed.

Lemma create_valid_booking_never_raw_witness :
  is_dict (VDates (VStr "2025-03-01") (VStr "2025-03-05")) = false.
Proof.
  exact (create_valid_booking_never_raw sample_overrides
           (mkBooking (VStr "ToDelete") (VStr "Doe") (VInt 150) (VBool true)
              (VDates (VStr "2025-03-01") (VStr "2025-03-05")) VNone) eq_refl).
Defined.

(** X10.  In the payload [create_booking_payload] builds, the entry
    additionalneeds is "Breakfast" unless overridden, the overriding value
    when one is given, and absent exactly when the override is [None]:
    leaving the field out of a payload takes an explicit [None]. *)
Theorem create_booking_payload_needs (overrides data : list (string * pyval)) :
  NoDup (Dict.keys overrides) →
  create_booking_payload overrides = Ok data →
  Dict.get "additionalneeds" data =
    match Dict.get "additionalneeds" overrides with
    | Some v => if is_none v then None else Some v
    | None => Some (VStr "Breakfast")
    end.
Proof.
  intros Hnd. unfold create_booking_payload.
  destruct (create_valid_booking overrides) as [b|e] eqn:Hrun; [|done].
  simpl. intros Hdict.
  destruct (create_valid_booking_inv overrides b Hrun) as (kw & Hinit & Hkw).
  destruct (Booking_init_inv kw b Hinit) as (_ & _ & Hneeds).
  assert (Hkwget : Dict.get "additionalneeds" kw =
                   Dict.get "additionalneeds" (Dict.update factory_defaults overrides)).
  { destruct Hkw as [(raw & _ & _ & ->)|[_ ->]]; [|done].
    by apply DictFacts.get_set_ne. }
  rewrite Hkwget, DictFacts.get_update in Hneeds by done.
  destruct (bookingdates b) as [| | | | | |ci co] eqn:Hb;
    try (rewrite to_dict_unstructured in Hdict by (by rewrite Hb); discriminate).
  destruct (is_none (additionalneeds b)) eqn:Hn.
  - rewrite (to_dict_unset b ci co) in Hdict by (by destruct (additionalneeds b)).
    injection Hdict as <-.
    destruct (Dict.get "additionalneeds" overrides) as [v|];
      simpl in Hneeds; rewrite Hneeds in Hn; [by rewrite Hn | done].
  - rewrite (to_dict_set b ci co) in Hdict
      by (by destruct (additionalneeds b)).
    injection Hdict as <-. simpl.
    destruct (Dict.get "additionalneeds" overrides) as [v|];
      simpl in Hneeds; rewrite Hneeds in Hn |- *; [by rewrite Hn | done].
Qed.

Lemma create_booking_payload_needs_witness :
  ∃ data,
    create_booking_payload sample_overrides = Ok data ∧
    Dict.get "additionalneeds" data = None.
Proof.
  eexists. split; [reflexivity|].
  exact (create_booking_payload_needs sample_overrides _
           ltac:(apply (bool_decide_unpack _); vm_compute; reflexivity) eq_refl).
Defined.

(** X11.  Serializing a booking and passing the result back to the
    factory as keyword arguments gives the booking again, with its date
    range restored from the nested dictionary, except for an unset
    additionalneeds, which comes back as the default "Breakfast". *)
Theorem create_valid_booking_to_dict (b : Booking) (ci co : pyval)
    (data : list (string * pyval)) :
  bookingdates b = VDates ci co →
  to_dict b = Ok data →
  create_valid_booking data =
    Ok (mkBooking (firstname b) (lastname b) (totalprice b) (depositpaid b)
          (VDates ci co)
          (if is_none (additionalneeds b) then VStr "Breakfast"
           else additionalneeds b)).
Proof.
  intros Hb Hdict.
  destruct (is_none (additionalneeds b)) eqn:Hn.
  - rewrite (to_dict_unset b ci co) in Hdict by (by destruct (additionalneeds b)).
    by injection Hdict as <-.
  - rewrite (to_dict_set b ci co) in Hdict by (by destruct (additionalneeds b)).
    by injection Hdict as <-.
Qed.

Lemma create_valid_booking_to_dict_witness :
  create_valid_booking (wire_core sample_booking (VStr "2025-06-15") (VStr "2025-06-20")) =
    Ok (mkBooking (VStr "Bob") (VStr "Johnson") (VInt 0) (VBool false)
          (VDates (VStr "2025-06-15") (VStr "2025-06-20")) (VStr "Breakfast")).
Proof.
  exact (create_valid_booking_to_dict sample_booking (VStr "2025-06-15")
           (VStr "2025-06-20") _ eq_refl eq_refl).
Defined.

(** ** Resource service, further *)

Section ServiceFurther.

Variable cfg : APIConfig.
Variable server : Type.
Variable handle : server → Request → server * outcome Response.
Variable format_2f : float → string.

Implicit Types (s : Service server) (o : outcome Response) (r : Response).

Ltac run_service :=
  unfold get, post, put, patch, delete, _url, _log_request, _log_response,
    read, logger, lift, set_token, session_request, mbind, M_bind, mret, M_ret;
  simpl.

Lemma client_request_stepped s s' (t : pyval) (rm : server) (reqs : list Request)
    (m : http_method) (path : string) (params json : option (list (string * pyval)))
    (headers : option (list (string * string))) :
  stepped s s' t rm reqs →
  client_request s' m path params json headers =
    client_request s m path params json headers.
Proof. intros (Hb & _ & Ht & _). unfold client_request. by rewrite Hb, Ht. Qed.

(** X12.  A failed [authenticate] leaves the cached token as it was.  It
    fails in three ways only, each after its one call was sent: with the
    error of the transport, with a decoding error when the body is not
    JSON, and with an attribute error when the body is JSON but not an
    object. *)
Theorem authenticate_failure s (username password : option string) (e : exn) s' :
  authenticate cfg handle format_2f username password s = (Raise e, s') →
  _token s' = _token s ∧
  sent s' = (sent s ++ [auth_request cfg s username password])%list ∧
  ((∃ rm, handle (remote s) (auth_request cfg s username password)
            = (rm, Raise e)) ∨
   (∃ rm r,
      handle (remote s) (auth_request cfg s username password) = (rm, Ok r) ∧
      ((json_body r = None ∧ e = JSONDecodeError) ∨
       (∃ body, json_body r = Some body ∧ (∀ d, body ≠ VDict d) ∧
                e = AttributeError "get")))).
Proof.
  unfold authenticate, auth_request, client_request. run_service.
  destruct (handle _ _) as [rm [r|e']] eqn:Hh; simpl.
  - unfold response_json. destruct (json_body r) as [body|] eqn:Hj; simpl.
    + destruct body; simpl; intros [= <- <-]; simpl;
        (split; [done|]; split; [done|]; right; exists rm, r; split; [done|];
         right; eexists; split; [done|]; split; [discriminate|done]).
    + intros [= <- <-]. simpl. split; [done|]. split; [done|].
      right. exists rm, r. split; [done|]. by left.
  - intros [= <- <-]. simpl. split; [done|]. split; [done|]. left. by exists rm.
Qed.

(** X13.  A cached token is reused: with a token that is not falsy, each
    authorized operation makes its one call, carrying that token in the
    Cookie header, and no call to the auth endpoint; the token stays
    cached, so the same holds for the operations that follow. *)
Theorem cached_token_reused s (booking_id : Z) (rm : server) o :
  py_truthy (_token s) = true →
  let cookie := Some [("Cookie", "token=" ++ py_str (_token s))] in
  (∀ booking body,
     to_dict booking = Ok body →
     handle (remote s)
       (client_request s PUT (booking_path booking_id) None (Some body) cookie)
       = (rm, o) →
     ∃ s', update_booking cfg handle format_2f booking_id booking s = (o, s') ∧
           stepped s s' (_token s) rm
             [client_request s PUT (booking_path booking_id) None (Some body)
                cookie]) ∧
  (∀ data,
     handle (remote s)
       (client_request s PATCH (booking_path booking_id) None (Some data) cookie)
       = (rm, o) →
     ∃ s', partial_update_booking cfg handle format_2f booking_id data s = (o, s') ∧
           stepped s s' (_token s) rm
             [client_request s PATCH (booking_path booking_id) None (Some data)
                cookie]) ∧
  (handle (remote s)
     (client_request s DELETE (booking_path booking_id) None None cookie)
     = (rm, o) →
   ∃ s', delete_booking cfg handle format_2f booking_id s = (o, s') ∧
         stepped s s' (_token s) rm
           [client_request s DELETE (booking_path booking_id) None None cookie]).
Proof.
  intros Ht. simpl.
  pose proof (auth_headers_cached cfg server handle format_2f s Ht) as Ha.
  repeat apply conj.
  - intros booking body Hd Hh. unfold update_booking, lift.
    unfold mbind at 1 2, M_bind. rewrite Hd, Ha.
    by apply (verbs_run server handle format_2f s (booking_path booking_id)
                None (Some body) _ rm o).
  - intros data Hh. unfold partial_update_booking.
    unfold mbind at 1, M_bind. rewrite Ha.
    by apply (verbs_run server handle format_2f s (booking_path booking_id)
                None (Some data) _ rm o).
  - intros Hh. unfold delete_booking. unfold mbind at 1, M_bind. rewrite Ha.
    by apply (verbs_run server handle format_2f s (booking_path booking_id)
                None None _ rm o).
Qed.

(** X14.  Authentication is lazy: on a service without token, the first
    authorized operation makes two calls, the authentication with the
    default credentials and then its own, which carries the token just
    received; the token is cached from then on. *)
Theorem first_authorized_call s (booking_id : Z) (rm1 rm : server) r
    (d : list (string * pyval)) o :
  py_truthy (_token s) = false →
  handle (remote s) (auth_request cfg s None None) = (rm1, Ok r) →
  json_body r = Some (VDict d) →
  let token := default VNone (Dict.get "token" d) in
  let cookie := Some [("Cookie", "token=" ++ py_str token)] in
  (∀ data,
     handle rm1
       (client_request s PATCH (booking_path booking_id) None (Some data) cookie)
       = (rm, o) →
     ∃ s', partial_update_booking cfg handle format_2f booking_id data s = (o, s') ∧
           stepped s s' token rm
             [auth_request cfg s None None;
              client_request s PATCH (booking_path booking_id) None (Some data)
                cookie]) ∧
  (handle rm1
     (client_request s DELETE (booking_path booking_id) None None cookie)
     = (rm, o) →
   ∃ s', delete_booking cfg handle format_2f booking_id s = (o, s') ∧
         stepped s s' token rm
           [auth_request cfg s None None;
            client_request s DELETE (booking_path booking_id) None None cookie]).
Proof.
  intros Ht Hh Hj. simpl.
  destruct (auth_headers_fetch_run cfg server handle format_2f s rm1 r d Ht Hh Hj)
    as (s1 & Ha & Hst).
  assert (Hcompose : ∀ s' req,
            stepped s1 s' (_token s1) rm [req] →
            stepped s s' (default VNone (Dict.get "token" d)) rm
              [auth_request cfg s None None; req]).
  { intros s' req (Hb & Hsh & Hto & Htok & Hr & Hs).
    destruct Hst as (Hb1 & Hsh1 & Hto1 & Htok1 & Hr1 & Hs1).
    repeat split; try congruence.
    rewrite Hs, Hs1. by rewrite <- app_assoc. }
  assert (Hrm : remote s1 = rm1) by (by destruct Hst as (_ & _ & _ & _ & ? & _)).
  set (cookie := Some [("Cookie",
                         "token=" ++ py_str (default VNone (Dict.get "token" d)))]).
  split.
  - intros data Hh2. unfold partial_update_booking.
    unfold mbind at 1, M_bind. rewrite Ha.
    rewrite <- (client_request_stepped s s1 _ _ _ PATCH (booking_path booking_id)
                  None (Some data) cookie Hst), <- Hrm in Hh2.
    destruct (verbs_run server handle format_2f s1 (booking_path booking_id)
                None (Some data) cookie rm o) as (_ & _ & _ & Hpatch & _).
    destruct (Hpatch Hh2) as (s' & Hrun & Hst2).
    exists s'. split; [exact Hrun|].
    rewrite (client_request_stepped s s1 _ _ _ PATCH (booking_path booking_id)
               None (Some data) cookie Hst) in Hst2.
    by apply Hcompose.
  - intros Hh2. unfold delete_booking. unfold mbind at 1, M_bind. rewrite Ha.
    rewrite <- (client_request_stepped s s1 _ _ _ DELETE (booking_path booking_id)
                  None None cookie Hst), <- Hrm in Hh2.
    destruct (verbs_run server handle format_2f s1 (booking_path booking_id)
                None None cookie rm o) as (_ & _ & _ & _ & Hdelete).
    destruct (Hdelete Hh2) as (s' & Hrun & Hst2).
    exists s'. split; [exact Hrun|].
    rewrite (client_request_stepped s s1 _ _ _ DELETE (booking_path booking_id)
               None None cookie Hst) in Hst2.
    by apply Hcompose.
Qed.

(** X15.  When the token has to be fetched and the authentication call
    fails in transport, an authorized operation raises that error and
    its own call is never made: the authentication is the only call sent,
    and no token is cached. *)
Theorem failed_authentication_aborts s (booking_id : Z) (rm : server) (e : exn) :
  py_truthy (_token s) = false →
  handle (remote s) (auth_request cfg s None None) = (rm, Raise e) →
  ∃ s',
    _token s' = _token s ∧
    sent s' = (sent s ++ [auth_request cfg s None None])%list ∧
    delete_booking cfg handle format_2f booking_id s = (Raise e, s') ∧
    (∀ data,
       partial_update_booking cfg handle format_2f booking_id data s
         = (Raise e, s')) ∧
    (∀ booking body,
       to_dict booking = Ok body →
       update_booking cfg handle format_2f booking_id booking s = (Raise e, s')).
Proof.
  intros Ht Hh.
  assert (Ha : ∃ s', auth_headers cfg handle format_2f s = (Raise e, s') ∧
                     _token s' = _token s ∧
                     sent s' = (sent s ++ [auth_request cfg s None None])%list).
  { rewrite auth_headers_fetch by done.
    unfold authenticate, auth_request, client_request in *. run_service.
    rewrite Hh. simpl. eexists. split; [reflexivity|]. by split. }
  destruct Ha as (s' & Ha & Htok & Hsent).
  exists s'. split; [done|]. split; [done|]. repeat apply conj.
  - unfold delete_booking. unfold mbind at 1, M_bind. by rewrite Ha.
  - intros data. unfold partial_update_booking. unfold mbind at 1, M_bind.
    by rewrite Ha.
  - intros booking body Hd. unfold update_booking, lift.
    unfold mbind at 1 2, M_bind. by rewrite Hd, Ha.
Qed.

(** X16.  Reading [auth_headers] again is free once a token is cached:
    after a read that left a token that is not falsy, the next read
    returns the same headers and changes nothing. *)
Theorem auth_headers_idempotent s (hdrs : list (string * string)) s' :
  auth_headers cfg handle format_2f s = (Ok hdrs, s') →
  py_truthy (_token s') = true →
  auth_headers cfg handle format_2f s' = (Ok hdrs, s').
Proof.
  intros Hrun Ht.
  rewrite (auth_headers_result cfg server handle format_2f s hdrs s' Hrun).
  by apply auth_headers_cached.
Qed.

Lemma follows_refl s : follows s s.
Proof. repeat split; exists []; by rewrite app_nil_r. Qed.

Lemma follows_trans s1 s2 s3 : follows s1 s2 → follows s2 s3 → follows s1 s3.
Proof.
  intros (Hb & Hh & Ht & [q Hq] & [l Hl]) (Hb' & Hh' & Ht' & [q' Hq'] & [l' Hl']).
  repeat split; try congruence.
  - exists (q ++ q')%list. by rewrite Hq', Hq, <- app_assoc.
  - exists (l ++ l')%list. by rewrite Hl', Hl, <- app_assoc.
Qed.

Lemma follows_bind {A B : Type} (m : M server A) (k : A → M server B) :
  (∀ s, follows s (m s).2) →
  (∀ a s, follows s (k a s).2) →
  ∀ s, follows s ((m ≫= k) s).2.
Proof.
  intros Hm Hk s. unfold mbind, M_bind.
  specialize (Hm s). destruct (m s) as [[a|e] s1]; simpl in *; [|done].
  eapply follows_trans; [exact Hm | apply Hk].
Qed.

Ltac solve_extension :=
  first [ by exists []; rewrite app_nil_r
        | rewrite <- ?app_assoc; eexists; reflexivity ].

Ltac solve_follows :=
  unfold follows; simpl;
  split; [reflexivity|]; split; [reflexivity|]; split; [reflexivity|];
  split; solve_extension.

Lemma verbs_follow s (path : string) (params json : option (list (string * pyval)))
    (headers : option (list (string * string))) :
  follows s (get handle format_2f path params headers s).2 ∧
  follows s (post handle format_2f path json headers s).2 ∧
  follows s (put handle format_2f path json headers s).2 ∧
  follows s (patch handle format_2f path json headers s).2 ∧
  follows s (delete handle format_2f path headers s).2.
Proof.
  refine (conj _ (conj _ (conj _ (conj _ _)))); run_service;
    destruct (handle _ _) as [rm [r|e]]; solve_follows.
Qed.

Lemma authenticate_follows s (username password : option string) :
  follows s (authenticate cfg handle format_2f username password s).2.
Proof.
  unfold authenticate. run_service.
  destruct (handle _ _) as [rm [r|e]]; simpl; [|solve_follows].
  unfold response_json. destruct (json_body r) as [body|]; simpl; [|solve_follows].
  destruct body; solve_follows.
Qed.

Lemma auth_headers_follows s :
  follows s (auth_headers cfg handle format_2f s).2.
Proof.
  destruct (py_truthy (_token s)) eqn:Ht.
  - rewrite auth_headers_cached by done. apply follows_refl.
  - rewrite auth_headers_fetch by done.
    pose proof (authenticate_follows s None None) as Hf.
    by destruct (authenticate _ _ _ _ _ _) as [[t|e] s1].
Qed.

(** X17.  No operation of the service touches what the constructor set:
    after any of them the base address, the session headers and the
    timeout are the same, the calls sent before are still the first calls
    sent, and the log records written before are still the first records:
    operations only add calls and records. *)
Theorem operations_only_extend s (booking_id : Z) :
  (∀ username password,
     follows s (authenticate cfg handle format_2f username password s).2) ∧
  follows s (auth_headers cfg handle format_2f s).2 ∧
  (∀ firstname lastname checkin checkout,
     follows s (get_booking_ids handle format_2f firstname lastname checkin
                  checkout s).2) ∧
  follows s (get_booking handle format_2f booking_id s).2 ∧
  (∀ booking, follows s (create_booking handle format_2f booking s).2) ∧
  (∀ booking,
     follows s (update_booking cfg handle format_2f booking_id booking s).2) ∧
  (∀ data,
     follows s (partial_update_booking cfg handle format_2f booking_id data s).2) ∧
  follows s (delete_booking cfg handle format_2f booking_id s).2.
Proof.
  refine (conj _ (conj _ (conj _ (conj _ (conj _ (conj _ (conj _ _))))))).
  - intros username password. apply authenticate_follows.
  - apply auth_headers_follows.
  - intros firstname lastname checkin checkout. unfold get_booking_ids.
    exact (proj1 (verbs_follow s ENDPOINT _ None None)).
  - unfold get_booking.
    exact (proj1 (verbs_follow s (booking_path booking_id) None None None)).
  - intros booking. unfold create_booking.
    apply follows_bind; [intros s0; apply follows_refl|].
    intros body s0.
    exact (proj1 (proj2 (verbs_follow s0 ENDPOINT None (Some body) None))).
  - intros booking. unfold update_booking.
    apply follows_bind; [intros s0; apply follows_refl|].
    intros body s0. apply follows_bind; [apply auth_headers_follows|].
    intros hdrs s1.
    exact (proj1 (proj2 (proj2
             (verbs_follow s1 (booking_path booking_id) None (Some body)
                (Some hdrs))))).
  - intros data. unfold partial_update_booking.
    apply follows_bind; [apply auth_headers_follows|].
    intros hdrs s1.
    exact (proj1 (proj2 (proj2 (proj2
             (verbs_follow s1 (booking_path booking_id) None (Some data)
                (Some hdrs)))))).
  - unfold delete_booking.
    apply follows_bind; [apply auth_headers_follows|].
    intros hdrs s1.
    exact (proj2 (proj2 (proj2 (proj2
             (verbs_follow s1 (booking_path booking_id) None None
                (Some hdrs)))))).
Qed.

Lemma info_lines_app (a b : list (log_level * string)) :
  info_lines (a ++ b) = (info_lines a ++ info_lines b)%list.
Proof.
  induction a as [|[[] msg] a IH]; simpl; [done|by rewrite IH|done|done].
Qed.

(** X18.  Every call of the client core is logged at level INFO: one line
    for the request, with the verb and the full address, and, when a
    response arrives, one line with its status and elapsed time.  A call
    that fails in transport leaves the request line without a response
    line. *)
Theorem calls_logged s (path : string) (params json : option (list (string * pyval)))
    (headers : option (list (string * string))) (rm : server) o :
  let request_line (m : http_method) :=
    "REQUEST  → " ++ method_name m ++ " " ++ base_url s ++ path in
  let response_lines :=
    match o with
    | Ok r => ["RESPONSE ← " ++ pretty (status_code r) ++ " " ++
               "(" ++ format_2f (total_seconds (elapsed r)) ++ "s)"]
    | Raise _ => []
    end in
  let lines (m : http_method) :=
    (info_lines (log s) ++ request_line m :: response_lines)%list in
  (handle (remote s) (client_request s GET path params None headers) = (rm, o) →
   info_lines (log (get handle format_2f path params headers s).2) = lines GET) ∧
  (handle (remote s) (client_request s POST path None json headers) = (rm, o) →
   info_lines (log (post handle format_2f path json headers s).2) = lines POST) ∧
  (handle (remote s) (client_request s PUT path None json headers) = (rm, o) →
   info_lines (log (put handle format_2f path json headers s).2) = lines PUT) ∧
  (handle (remote s) (client_request s PATCH path None json headers) = (rm, o) →
   info_lines (log (patch handle format_2f path json headers s).2) = lines PATCH) ∧
  (handle (remote s) (client_request s DELETE path None None headers) = (rm, o) →
   info_lines (log (delete handle format_2f path headers s).2) = lines DELETE).
Proof.
  unfold client_request. simpl.
  refine (conj _ (conj _ (conj _ (conj _ _)))); intros Hh; run_service;
    rewrite Hh; destruct o; simpl; rewrite !info_lines_app; simpl;
    rewrite <- ?app_assoc; simpl; rewrite ?app_nil_r; reflexivity.
Qed.

(** X19.  The clean-up of the fixture [created_booking] never raises,
    whatever the remote end does.  It records a warning exactly when the
    deletion raised; a deletion that was answered, with whatever status,
    is recorded as cleaned up.  Nothing else changes after the deletion. *)
Theorem cleanup_never_raises s (booking_id : Z) :
  let record :=
    match (delete_booking cfg handle format_2f booking_id s).1 with
    | Ok _ => (INFO, "Cleaned up booking ID: " ++ pretty booking_id)
    | Raise _ => (WARNING, "Could not clean up booking ID: " ++ pretty booking_id)
    end in
  ∃ s',
    created_booking_teardown cfg handle format_2f booking_id s = (Ok tt, s') ∧
    log s' =
      (log (delete_booking cfg handle format_2f booking_id s).2 ++ [record])%list ∧
    sent s' = sent (delete_booking cfg handle format_2f booking_id s).2 ∧
    _token s' = _token (delete_booking cfg handle format_2f booking_id s).2 ∧
    remote s' = remote (delete_booking cfg handle format_2f booking_id s).2.
Proof.
  unfold created_booking_teardown, try_except.
  unfold mbind at 1, M_bind.
  destruct (delete_booking cfg handle format_2f booking_id s) as [[r|e] s1];
    simpl; eexists; (split; [reflexivity|]); by simpl.
Qed.

(** X20.  The set-up of the fixture [created_booking], on a creation that
    the remote end answers with a JSON object: it hands the test the
    object's bookingid and booking, and raises a [KeyError] when the object
    lacks one of them; in each case the creation call has been made, and
    it is the only call. *)
Theorem created_booking_setup_object s (sample : Booking)
    (body : list (string * pyval)) (rm : server) r (d : list (string * pyval)) :
  to_dict sample = Ok body →
  handle (remote s) (client_request s POST ENDPOINT None (Some body) None)
    = (rm, Ok r) →
  json_body r = Some (VDict d) →
  (created_booking_setup handle format_2f sample s).1 =
    match Dict.get "bookingid" d, Dict.get "booking" d with
    | Some booking_id, Some booking => Ok [("id", booking_id); ("data", booking)]
    | Some _, None => Raise (KeyError "booking")
    | None, _ => Raise (KeyError "bookingid")
    end ∧
  sent (created_booking_setup handle format_2f sample s).2 =
    (sent s ++ [client_request s POST ENDPOINT None (Some body) None])%list ∧
  remote (created_booking_setup handle format_2f sample s).2 = rm.
Proof.
  intros Hd Hh Hj. unfold created_booking_setup, create_booking, client_request in *.
  run_service. rewrite Hd. simpl. rewrite Hh. simpl.
  unfold response_json. rewrite Hj. simpl.
  destruct (Dict.get "bookingid" d) as [booking_id|]; simpl; [|done].
  destruct (Dict.get "booking" d) as [booking|]; simpl; done.
Qed.

(** X21.  The address of a booking determines its identifier: two
    identifiers with the same path are equal, so distinct bookings are
    never addressed by the same path. *)
Theorem booking_path_inj (a b : Z) : booking_path a = booking_path b → a = b.
Proof.
  unfold booking_path, ENDPOINT. intros H.
  apply (inj pretty). by simplify_eq/=.
Qed.

End ServiceFurther.

(** ** The further properties on concrete remote ends *)

Lemma authenticate_failure_witness :
  _token (authenticate demo_cfg unreachable demo_format None None fresh_service).2
    = _token fresh_service.
Proof.
  exact (proj1 (authenticate_failure demo_cfg nat unreachable demo_format
                  fresh_service None None (RequestException "connection refused")
                  _ eq_refl)).
Defined.

Lemma cached_token_reused_witness :
  ∃ s',
    delete_booking demo_cfg granting demo_format 7 authenticated_service =
      (Ok token_response, s') ∧
    stepped authenticated_service s' (VStr "abc123") 2%nat
      [client_request authenticated_service DELETE "/booking/7" None None
         (Some [("Cookie", "token=abc123")])].
Proof.
  destruct (cached_token_reused demo_cfg nat granting demo_format
              authenticated_service 7 2%nat (Ok token_response) eq_refl)
    as (_ & _ & Hdelete).
  exact (Hdelete eq_refl).
Defined.

Lemma first_authorized_call_witness :
  ∃ s',
    delete_booking demo_cfg granting demo_format 7 fresh_service =
      (Ok token_response, s') ∧
    stepped fresh_service s' (VStr "abc123") 2%nat
      [auth_request demo_cfg fresh_service None None;
       client_request fresh_service DELETE "/booking/7" None None
         (Some [("Cookie", "token=abc123")])].
Proof.
  destruct (first_authorized_call demo_cfg nat granting demo_format fresh_service
              7 1%nat 2%nat token_response [("token", VStr "abc123")]
              (Ok token_response) eq_refl eq_refl eq_refl)
    as (_ & Hdelete).
  exact (Hdelete eq_refl).
Defined.

Lemma failed_authentication_aborts_witness :
  ∃ s',
    _token s' = _token fresh_service ∧
    sent s' = [auth_request demo_cfg fresh_service None None] ∧
    delete_booking demo_cfg unreachable demo_format 7 fresh_service =
      (Raise (RequestException "connection refused"), s').
Proof.
  destruct (failed_authentication_aborts demo_cfg nat unreachable demo_format
              fresh_service 7 0%nat (RequestException "connection refused")
              eq_refl eq_refl)
    as (s' & Htok & Hsent & Hdelete & _).
  exists s'. split; [exact Htok|]. split; [exact Hsent | exact Hdelete].
Defined.

Lemma auth_headers_idempotent_witness :
  auth_headers demo_cfg granting demo_format authenticated_service =
    (Ok [("Cookie", "token=abc123")], authenticated_service).
Proof.
  exact (auth_headers_idempotent demo_cfg nat granting demo_format fresh_service
           [("Cookie", "token=abc123")] authenticated_service eq_refl eq_refl).
Defined.

Lemma created_booking_setup_object_witness :
  (created_booking_setup creating demo_format sample_booking fresh_service).1 =
    Ok [("id", VInt 7); ("data", VDict echoed_booking)] ∧
  sent (created_booking_setup creating demo_format sample_booking fresh_service).2 =
    [client_request fresh_service POST ENDPOINT None
       (Some (wire_core sample_booking (VStr "2025-06-15") (VStr "2025-06-20")))
       None] ∧
  remote (created_booking_setup creating demo_format sample_booking fresh_service).2
    = 1%nat.
Proof.
  exact (created_booking_setup_object nat creating demo_format fresh_service
           sample_booking
           (wire_core sample_booking (VStr "2025-06-15") (VStr "2025-06-20"))
           1%nat creation_response
           [("bookingid", VInt 7); ("booking", VDict echoed_booking)]
           eq_refl eq_refl eq_refl).
Defined.

Lemma booking_path_inj_witness : 999999999%Z = 999999999%Z.
Proof. exact (booking_path_inj 999999999 999999999 eq_refl). Defined.

(** ** Scenarios *)

Section ScenarioProperties.

Variable server : Type.
Variable handle : server → Request → server * outcome Response.
Variable format_2f : float → string.
Variable float_str : float → string.

Implicit Types (s : Service server) (o : outcome Response) (r : Response).

Ltac run_scenario :=
  unfold get_booking, get, post, _url, _log_request, _log_response,
    read, logger, lift, session_request, mbind, M_bind, mret, M_ret;
  simpl.

(** X22.  The scenario of the missing booking passes exactly when the
    remote end answers the GET of booking 999999999 with status 404: the
    error status is the expected outcome, and a transport error or any
    other status fails the scenario. *)
Theorem missing_booking_scenario s (rm : server) o :
  handle (remote s) (client_request s GET "/booking/999999999" None None None)
    = (rm, o) →
  (test_get_nonexistent_booking_returns_404 handle format_2f s).1 = Ok tt ↔
  ∃ r, o = Ok r ∧ status_code r = 404%Z.
Proof.
  unfold client_request, test_get_nonexistent_booking_returns_404.
  intros Hh. run_scenario.
  change (booking_path 999999999) with "/booking/999999999".
  rewrite Hh. destruct o as [r|e]; simpl.
  - unfold assert_status_code, py_assert.
    destruct (Z.eqb (status_code r) 404) eqn:E.
    + apply Z.eqb_eq in E. split; [|done]. intros _. by exists r.
    + apply Z.eqb_neq in E. split; [done|]. by intros (r' & [= <-] & ?).
  - split; [done|]. by intros (r' & ? & _).
Qed.

(** X23.  The health check passes exactly when the ping is answered with
    status 201 in less than five seconds. *)
Theorem health_check_scenario s (rm : server) o :
  handle (remote s) (client_request s GET "/ping" None None None) = (rm, o) →
  (test_api_health_check handle format_2f float_str s).1 = Ok tt ↔
  ∃ r, o = Ok r ∧ status_code r = 201%Z ∧
       PrimFloat.ltb (total_seconds (elapsed r)) 5.0%float = true.
Proof.
  unfold client_request, test_api_health_check.
  intros Hh. run_scenario. rewrite Hh. destruct o as [r|e]; simpl.
  - unfold assert_status_code, assert_response_time, py_assert. simpl.
    destruct (Z.eqb (status_code r) 201) eqn:E; simpl.
    + apply Z.eqb_eq in E.
      destruct (PrimFloat.ltb _ _) eqn:Hlt; simpl.
      * split; [|done]. intros _. by exists r.
      * split; [done|]. intros (r' & [= <-] & _ & Hlt').
        rewrite Hlt in Hlt'. discriminate.
    + apply Z.eqb_neq in E. split; [done|]. by intros (r' & [= <-] & ? & _).
  - split; [done|]. by intros (r' & ? & _).
Qed.

(** X24.  The authentication scenario passes exactly when the auth
    endpoint answers with status 200 and a JSON object whose token is a
    non-empty string. *)
Theorem valid_credentials_scenario s (rm : server) o :
  handle (remote s)
    (client_request s POST "/auth" None
       (Some [("username", VStr "admin"); ("password", VStr "password123")]) None)
    = (rm, o) →
  (test_auth_with_valid_credentials handle format_2f s).1 = Ok tt ↔
  ∃ r d t,
    o = Ok r ∧ status_code r = 200%Z ∧ json_body r = Some (VDict d) ∧
    Dict.get "token" d = Some (VStr t) ∧ t ≠ EmptyString.
Proof.
  unfold client_request, test_auth_with_valid_credentials.
  intros Hh. run_scenario. rewrite Hh. destruct o as [r|e]; simpl.
  2: { split; [done|]. by intros (r' & d & t & ? & _). }
  unfold assert_status_code, py_assert, response_json.
  destruct (Z.eqb (status_code r) 200) eqn:E; simpl.
  2: { apply Z.eqb_neq in E. split; [done|].
       intros (r' & d & t & [= <-] & ? & _). contradiction. }
  apply Z.eqb_eq in E.
  destruct (json_body r) as [data|] eqn:Hj; simpl.
  2: { split; [done|]. intros (r' & d & t & [= <-] & _ & ? & _). congruence. }
  destruct data as [| | | l | l | d |];
    try (simpl; split; [done|];
         intros (r' & d' & t & [= <-] & _ & ? & _); congruence).
  - simpl. destruct (str_in "token" l); simpl;
      (split; [done|]; intros (r' & d' & t & [= <-] & _ & ? & _); congruence).
  - simpl. destruct (existsb _ l); simpl;
      (split; [done|]; intros (r' & d' & t & [= <-] & _ & ? & _); congruence).
  - simpl. unfold Dict.mem.
    destruct (Dict.get "token" d) as [token|] eqn:Hget; simpl.
    2: { split; [done|].
         intros (r' & d' & t & [= <-] & _ & Hj' & Hget' & _). congruence. }
    destruct token as [| | | t | | |]; simpl;
      try (split; [done|];
           intros (r' & d' & t' & [= <-] & _ & Hj' & Hget' & _); congruence).
    destruct (String.eqb t EmptyString) eqn:Et; simpl.
    + apply String.eqb_eq in Et. split; [done|].
      intros (r' & d' & t' & [= <-] & _ & Hj' & Hget' & Hne). congruence.
    + apply String.eqb_neq in Et. split; [|done].
      intros _. by exists r, d, t.
Qed.

End ScenarioProperties.

Lemma missing_booking_scenario_witness :
  (test_get_nonexistent_booking_returns_404 missing demo_format fresh_service).1
    = Ok tt ↔
  ∃ r, Ok not_found_response = Ok r ∧ status_code r = 404%Z.
Proof.
  exact (missing_booking_scenario nat missing demo_format fresh_service 1%nat
           (Ok not_found_response) eq_refl).
Defined.

Lemma health_check_scenario_witness :
  (test_api_health_check alive demo_format demo_format fresh_service).1 = Ok tt ↔
  ∃ r, Ok pong_response = Ok r ∧ status_code r = 201%Z ∧
       PrimFloat.ltb (total_seconds (elapsed r)) 5.0%float = true.
Proof.
  exact (health_check_scenario nat alive demo_format demo_format fresh_service
           1%nat (Ok pong_response) eq_refl).
Defined.

Lemma valid_credentials_scenario_witness :
  (test_auth_with_valid_credentials granting demo_format fresh_service).1 = Ok tt ↔
  ∃ r d t,
    Ok token_response = Ok r ∧ status_code r = 200%Z ∧
    json_body r = Some (VDict d) ∧
    Dict.get "token" d = Some (VStr t) ∧ t ≠ EmptyString.
Proof.
  exact (valid_credentials_scenario nat granting demo_format fresh_service 1%nat
           (Ok token_response) eq_refl).
Defined.
